(** * NihonMapMarker: a shallow embedding of [map.py]

    [map.py] reads point records from a spreadsheet and a boundary polygon
    from a GeoJSON file, and assembles a folium map: a base tile layer, a
    mask polygon with the country as its hole, and one marker (optionally
    one circle) per spreadsheet row.

    The embedding follows the script statement by statement.  Python
    exceptions are the [Err] branch of a [result]; the dictionaries of the
    script ([fmap.options], the parsed GeoJSON, a pandas row) are finite
    maps; the map object that the script mutates with [add_to] is passed
    along explicitly.  A folium layer is the record of the arguments the
    script passes to its constructor.  Of the library the embedding keeps
    what decides whether the script goes on: the check of a location by
    [folium.Map], [folium.Marker] and [folium.Circle], and the fact that
    [save] opens the output file before it renders the page.  What the
    library computes on its own (the options it derives, Python's [float]
    on a text, the rendering of a layer made from spreadsheet cells) is a
    parameter, the record [Library].  Cell types other than booleans,
    numbers and text are left out. *)

From Stdlib Require Import ZArith Floats.PrimFloat.
From stdpp Require Import gmap strings list fin_maps.
Set Warnings "-inexact-float,-register-all".
Open Scope Z_scope.

(** ** Python values and exceptions *)

Inductive pykey : Type :=
  | KStr (s : string)
  | KInt (i : nat).

Inductive exn : Type :=
  | KeyError (k : pykey)
  | IndexError
  | TypeError
  | ValueError
  | FileNotFoundError (path : string)
  | JSONDecodeError (path : string)
  | PermissionError (path : string).

Inductive result (A : Type) : Type :=
  | Ok (a : A)
  | Err (e : exn).
Arguments Ok {A} a.
Arguments Err {A} e.

#[global] Instance result_ret : MRet result := λ A a, Ok a.
#[global] Instance result_bind : MBind result := λ A B f r,
  match r with
  | Ok a => f a
  | Err e => Err e
  end.

Definition is_ok {A} (r : result A) : bool :=
  match r with Ok _ => true | Err _ => false end.

(** What [json.load] returns: [dict], [list], [str], [int], [float],
    [bool] and [None].  A [JStr] holds the UTF-8 bytes of the Python [str];
    a [JFloat] is a binary64 value, as Python's [float]. *)
Inductive json : Type :=
  | JNull
  | JBool (b : bool)
  | JInt (z : Z)
  | JFloat (f : float)
  | JStr (s : string)
  | JArr (l : list json)
  | JObj (m : gmap string json).

(** ** Subscripting

    Python indexes a [str] by code point.  [utf8_chars] cuts the UTF-8
    bytes of a string into its code points: a byte [10xxxxxx] continues the
    code point opened by the lead byte before it. *)

Definition is_continuation (c : Ascii.ascii) : bool :=
  let n := Ascii.nat_of_ascii c in
  (Nat.leb 128 n && Nat.ltb n 192)%bool.

Fixpoint utf8_split (s : string) : string * list string :=
  match s with
  | EmptyString => (EmptyString, [])
  | String c rest =>
      let '(pending, chars) := utf8_split rest in
      if is_continuation c then (String c pending, chars)
      else (EmptyString, String c pending :: chars)
  end.

Definition utf8_chars (s : string) : list string := (utf8_split s).2.

(** [v[k]] for a string key [k]. *)
Definition getitem (v : json) (k : string) : result json :=
  match v with
  | JObj m =>
      match m !! k with
      | Some x => Ok x
      | None => Err (KeyError (KStr k))
      end
  | _ => Err TypeError
  end.

(** [v[i]] for a literal index [i >= 0] (the script only writes [[0]]).
    The keys of a parsed JSON object are strings, so an integer key is
    never found. *)
Definition getindex (v : json) (i : nat) : result json :=
  match v with
  | JArr l =>
      match l !! i with
      | Some x => Ok x
      | None => Err IndexError
      end
  | JStr s =>
      match utf8_chars s !! i with
      | Some c => Ok (JStr c)
      | None => Err IndexError
      end
  | JObj _ => Err (KeyError (KInt i))
  | _ => Err TypeError
  end.

(** ** Spreadsheet cells

    The scalars [pd.read_excel] puts in a frame.  An empty cell is read as
    the float NaN. *)
Inductive cell : Type :=
  | CBool (b : bool)
  | CInt (z : Z)
  | CFloat (f : float)
  | CStr (s : string).

Definition NaN : cell := CFloat nan.

(** Python's [bool(x)]: [False], zero and the empty string are false.  For
    a float, [bool(x)] is [x != 0.0]; NaN is different from every float. *)
Definition py_bool (c : cell) : bool :=
  match c with
  | CBool b => b
  | CInt z => negb (z =? 0)
  | CFloat f => negb (PrimFloat.eqb f 0%float)
  | CStr s => negb (String.eqb s "")
  end.

(** [pd.notnull(x)] on a scalar. *)
Definition notnull (c : cell) : bool :=
  match c with
  | CFloat f => negb (PrimFloat.is_nan f)
  | _ => true
  end.

(** A row of the frame is a pandas [Series] labelled by the column names. *)
Definition series_getitem (row : gmap string cell) (k : string) : result cell :=
  match row !! k with
  | Some c => Ok c
  | None => Err (KeyError (KStr k))
  end.

(** [k in row] tests the labels. *)
Definition series_contains (row : gmap string cell) (k : string) : bool :=
  bool_decide (is_Some (row !! k)).

(** [row.get(k, default)]. *)
Definition series_get (row : gmap string cell) (k : string) (default : cell) : cell :=
  match row !! k with
  | Some c => c
  | None => default
  end.

(** A [DataFrame]: the header and the data rows, in sheet order. *)
Record DataFrame : Type := {
  df_columns : list string;
  df_values : list (list cell)
}.

(** A frame is rectangular: every data row has one cell per column. *)
Definition df_wf (df : DataFrame) : Prop :=
  Forall (λ vs : list cell, length vs = length (df_columns df)) (df_values df).

(** [df.iterrows()], without the row index that the loop body never uses. *)
Definition iterrows (df : DataFrame) : list (gmap string cell) :=
  map (λ vs : list cell, list_to_map (zip (df_columns df) vs)) (df_values df).

(** ** Layers and the map object *)

Record Icon : Type := { icon_color : cell }.

Inductive layer : Type :=
  | TileLayer (tiles attr name : string) (overlay control : bool)
  | GeoJson (data : json) (name : string) (style_function : json → json)
  | Marker (location : cell * cell) (tooltip : cell) (icon : Icon)
  | Circle (location : cell * cell) (radius : Z) (color : cell)
           (fill : bool) (fill_opacity : float).

(** The keyword arguments of [folium.Map]. *)
Record MapKwargs : Type := {
  kw_location : json;
  kw_zoom_start : Z;
  kw_tiles : option string;
  kw_control_scale : bool;
  kw_prefer_canvas : bool;
  kw_zoom_animation : bool;
  kw_max_bounds : bool;
  kw_zoom_control : bool
}.

Record Map : Type := {
  kwargs : MapKwargs;
  options : gmap string json;
  children : list layer
}.

Definition set_option (k : string) (v : json) (m : Map) : Map :=
  {| kwargs := kwargs m; options := <[k := v]> (options m); children := children m |}.

(** [l.add_to(m)]: the layer becomes the last child. *)
Definition add_to (l : layer) (m : Map) : Map :=
  {| kwargs := kwargs m; options := options m; children := children m ++ [l] |}.

(** ** Files *)

(** [FHtml m] is a page rendered from the map [m]; two renderings of one
    map differ in the identifiers the library generates, which the
    embedding does not tell apart.  [FEmpty] is a file opened for writing
    and not written yet. *)
Inductive file : Type :=
  | FExcel (df : DataFrame)
  | FJson (j : json)
  | FHtml (m : Map)
  | FEmpty
  | FOther.

(** [open(path, encoding="utf-8")] followed by [json.load]. *)
Definition json_load (fs : gmap string file) (path : string) : result json :=
  match fs !! path with
  | None => Err (FileNotFoundError path)
  | Some (FJson j) => Ok j
  | Some _ => Err (JSONDecodeError path)
  end.

Definition read_excel (fs : gmap string file) (path : string) : result DataFrame :=
  match fs !! path with
  | None => Err (FileNotFoundError path)
  | Some (FExcel df) => Ok df
  | Some _ => Err ValueError
  end.

(** ** [create_japan_map_from_excel] *)

Definition default_center : json := JArr [JFloat 36.2048%float; JFloat 138.2529%float].
Definition default_zoom_start : Z := 5.

Definition max_bounds_box : json :=
  JArr [JArr [JFloat 20.0%float; JFloat 122.0%float];
        JArr [JFloat 46.0%float; JFloat 154.0%float]].

Definition gsi_tiles : layer :=
  TileLayer "https://cyberjapandata.gsi.go.jp/xyz/std/{z}/{x}/{y}.png"
            "地図出典：国土地理院" "国土地理院タイル" false true.

Definition world_ring : json :=
  JArr [JArr [JInt 180; JInt 90]; JArr [JInt 180; JInt (-90)];
        JArr [JInt (-180); JInt (-90)]; JArr [JInt (-180); JInt 90];
        JArr [JInt 180; JInt 90]].

(** Line 67: [japan_geo["features"][0]["geometry"]["coordinates"][0]]. *)
Definition boundary_ring (japan_geo : json) : result json :=
  features ← getitem japan_geo "features";
  feature ← getindex features 0;
  geometry ← getitem feature "geometry";
  coordinates ← getitem geometry "coordinates";
  getindex coordinates 0.

(** The dictionary literal of lines 58-70. *)
Definition mask_geojson (japan_geo : json) : result json :=
  ring ← boundary_ring japan_geo;
  mret (JObj {[ "type" := JStr "Feature";
                "geometry" := JObj {[ "type" := JStr "Polygon";
                                      "coordinates" := JArr [world_ring; ring] ]} ]}).

(** The [style_function] lambda of lines 74-79. *)
Definition mask_style (feature : json) : json :=
  JObj {[ "fillColor" := JStr "gray";
          "color" := JStr "gray";
          "fillOpacity" := JFloat 0.8%float;
          "weight" := JInt 0 ]}.

Definition mask_layer (mask : json) : layer :=
  GeoJson mask "マスク" mask_style.

Definition blue : cell := CStr "blue".

(** [row[k] if (k in row and pd.notnull(row[k])) else 'blue'] *)
Definition color_or_blue (row : gmap string cell) (k : string) : result cell :=
  present ← (if series_contains row k
             then c ← series_getitem row k; mret (notnull c)
             else mret false);
  if present : bool then series_getitem row k else mret blue.

(** Line 96. *)
Definition show_circle_of (row : gmap string cell) : bool :=
  py_bool (series_get row "show_circle" (CBool false)).

(** ** The library

    What the script leaves to folium and to Python: the option dictionary
    [folium.Map] derives from its keyword arguments, [float(s)] on a text
    ([None] when it raises), and the error, if any, of rendering a marker
    or a circle into the page (it depends on the run-time types of the
    cells the layer holds). *)
Record Library : Type := {
  lib_options : MapKwargs → gmap string json;
  lib_float : string → option float;
  lib_render : layer → option exn
}.

Section folium.

Variable lib : Library.

(** ** Locations

    [validate_location] of folium: both coordinates must convert with
    [float] and must not be NaN; whatever fails, it raises [ValueError]
    for a coordinate. *)
Definition valid_coord (c : cell) : bool :=
  match c with
  | CBool _ => true
  | CInt _ => true
  | CFloat f => negb (PrimFloat.is_nan f)
  | CStr s =>
      match lib_float lib s with
      | Some f => negb (PrimFloat.is_nan f)
      | None => false
      end
  end.

(** On the two-element list [[lat, lon]] the script builds. *)
Definition validate_location (location : cell * cell) : result unit :=
  if valid_coord location.1 && valid_coord location.2 then Ok () else Err ValueError.

Definition folium_Marker (location : cell * cell) (tooltip : cell) (icon : Icon)
    : result layer :=
  _ ← validate_location location;
  mret (Marker location tooltip icon).

Definition folium_Circle (location : cell * cell) (radius : Z) (color : cell)
    (fill : bool) (fill_opacity : float) : result layer :=
  _ ← validate_location location;
  mret (Circle location radius color fill fill_opacity).

(** The body of the [for] loop, lines 87-115. *)
Definition add_point (row : gmap string cell) (fmap : Map) : result Map :=
  lat ← series_getitem row "lat";
  lon ← series_getitem row "lon";
  label ← series_getitem row "info";
  icon_color ← color_or_blue row "color";
  let show_circle := show_circle_of row in
  circle_color ← color_or_blue row "circle_color";
  marker ← folium_Marker (lat, lon) label {| icon_color := icon_color |};
  let fmap := add_to marker fmap in
  if show_circle
  then circle ← folium_Circle (lat, lon) 10000 circle_color true 0.1%float;
       mret (add_to circle fmap)
  else mret fmap.

Fixpoint add_points (rows : list (gmap string cell)) (fmap : Map) : result Map :=
  match rows with
  | [] => mret fmap
  | row :: rows => fmap ← add_point row fmap; add_points rows fmap
  end.

(** [validate_location] on the centre the caller passes, any Python value:
    it must have a length, of 2, be indexable by 0 and 1, and hold two
    coordinates as above.  A text of two characters is such a value. *)
Definition valid_json_coord (v : json) : bool :=
  match v with
  | JBool _ => true
  | JInt _ => true
  | JFloat f => negb (PrimFloat.is_nan f)
  | JStr s =>
      match lib_float lib s with
      | Some f => negb (PrimFloat.is_nan f)
      | None => false
      end
  | _ => false
  end.

Definition validate_pair (coords : list json) : result unit :=
  match coords with
  | [a; b] =>
      if valid_json_coord a && valid_json_coord b then Ok () else Err ValueError
  | _ => Err ValueError
  end.

Definition validate_center (location : json) : result unit :=
  match location with
  | JArr l => validate_pair l
  | JStr s => validate_pair (JStr <$> utf8_chars s)
  | JObj m => if decide (size m = 2%nat) then Err TypeError else Err ValueError
  | _ => Err TypeError
  end.

(** [folium.Map(location=..., ...)]: a location that is not [None] is
    validated first. *)
Definition check_map_location (location : json) : result unit :=
  match location with
  | JNull => Ok ()
  | _ => validate_center location
  end.

Definition folium_Map (kw : MapKwargs) : result Map :=
  _ ← check_map_location (kw_location kw);
  mret {| kwargs := kw; options := lib_options lib kw; children := [] |}.

(** Lines 27-50: the canvas with its options and the base tile layer.
    [center] and [zoom_start] are [None] when the caller leaves them to
    their defaults. *)
Definition base_map (center : option json) (zoom_start : option Z) : result Map :=
  fmap ← folium_Map
    {| kw_location := default default_center center;
       kw_zoom_start := default default_zoom_start zoom_start;
       kw_tiles := None;
       kw_control_scale := true;
       kw_prefer_canvas := true;
       kw_zoom_animation := true;
       kw_max_bounds := true;
       kw_zoom_control := true |};
  let fmap := set_option "maxBounds" max_bounds_box fmap in
  let fmap := set_option "minZoom" (JInt 5) fmap in
  let fmap := set_option "maxZoom" (JInt 12) fmap in
  mret (add_to gsi_tiles fmap).

Definition create_japan_map_from_excel (fs : gmap string file)
    (excel_path geojson_path : string)
    (center : option json) (zoom_start : option Z) : result Map :=
  fmap ← base_map center zoom_start;
  japan_geo ← json_load fs geojson_path;
  mask ← mask_geojson japan_geo;
  let fmap := add_to (mask_layer mask) fmap in
  df ← read_excel fs excel_path;
  add_points (iterrows df) fmap.

(** ** [main] *)

Record World : Type := {
  base_dir : string;
  files : gmap string file;
  dir_writable : bool;
  stdout : list string
}.

Definition path_join (dir name : string) : string := dir +:+ "/" +:+ name.

Definition set_file (path : string) (f : file) (w : World) : World :=
  {| base_dir := base_dir w; files := <[path := f]> (files w);
     dir_writable := dir_writable w; stdout := stdout w |}.

(** Rendering walks the layers in order.  The tile layer holds text
    constants and the mask holds what [json.load] returned, which is
    written back as JSON; a layer made from cells is the library's. *)
Definition layer_error (l : layer) : option exn :=
  match l with
  | Marker _ _ _ | Circle _ _ _ _ _ => lib_render lib l
  | _ => None
  end.

Definition render_error (m : Map) : option exn :=
  head (omap layer_error (children m)).

(** [m.save(path)]: the file is opened for writing, which empties or
    creates it, then the page is rendered, then written. *)
Definition save (m : Map) (path : string) (w : World) : result unit * World :=
  if dir_writable w
  then let w := set_file path FEmpty w in
       match render_error m with
       | Some e => (Err e, w)
       | None => (Ok (), set_file path (FHtml m) w)
       end
  else (Err (PermissionError path), w).

Definition print (line : string) (w : World) : World :=
  {| base_dir := base_dir w; files := files w;
     dir_writable := dir_writable w; stdout := stdout w ++ [line] |}.

Definition excel_path (w : World) : string := path_join (base_dir w) "points.xlsx".
Definition geojson_path (w : World) : string := path_join (base_dir w) "japan_boundary.geojson".
Definition output_path (w : World) : string := path_join (base_dir w) "japan_map.html".

Definition main (w : World) : result unit * World :=
  match create_japan_map_from_excel (files w) (excel_path w) (geojson_path w) None None with
  | Err e => (Err e, w)
  | Ok japan_map =>
      match save japan_map (output_path w) w with
      | (Err e, w') => (Err e, w')
      | (Ok _, w') => (Ok (), print ("地図の作成が完了しました: " +:+ output_path w) w')
      end
  end.

End folium.

(** ** Reading a map back *)

Definition is_tile (l : layer) : bool :=
  match l with TileLayer _ _ _ _ _ => true | _ => false end.
Definition is_geojson (l : layer) : bool :=
  match l with GeoJson _ _ _ => true | _ => false end.
Definition is_marker (l : layer) : bool :=
  match l with Marker _ _ _ => true | _ => false end.
Definition is_circle (l : layer) : bool :=
  match l with Circle _ _ _ _ _ => true | _ => false end.

Definition markers (m : Map) : list layer := List.filter is_marker (children m).
Definition circles (m : Map) : list layer := List.filter is_circle (children m).

(** The rings of a GeoJSON polygon feature: the first is the outer ring,
    the following ones are holes. *)
Definition polygon_rings (feature : json) : result json :=
  geometry ← getitem feature "geometry";
  getitem geometry "coordinates".

Definition hole_ring (feature : json) : result json :=
  rings ← polygon_rings feature;
  getindex rings 1.

(** World coordinates: a vertex is [[lon, lat]] with the longitude in
    [[-180, 180]] and the latitude in [[-90, 90]]. *)
Definition lon_in_world (v : json) : bool :=
  match v with
  | JInt z => (-180 <=? z) && (z <=? 180)
  | JFloat f => PrimFloat.leb (-180)%float f && PrimFloat.leb f 180%float
  | _ => false
  end.

Definition lat_in_world (v : json) : bool :=
  match v with
  | JInt z => (-90 <=? z) && (z <=? 90)
  | JFloat f => PrimFloat.leb (-90)%float f && PrimFloat.leb f 90%float
  | _ => false
  end.

Definition in_world (vertex : json) : bool :=
  match vertex with
  | JArr (lon :: lat :: _) => lon_in_world lon && lat_in_world lat
  | _ => false
  end.

Definition ring_in_world (ring : json) : bool :=
  match ring with
  | JArr vertices => forallb in_world vertices
  | _ => false
  end.

(** What the documentation promises for an optional colour column: the
    cell when there is one and it is not null, ["blue"] otherwise. *)
Definition cell_or_blue (o : option cell) : cell :=
  match o with
  | Some c => if notnull c then c else blue
  | None => blue
  end.

(** The layers that the loop body adds for a row that has the three
    required cells. *)
Definition point_marker (row : gmap string cell) (lat lon label : cell) : layer :=
  Marker (lat, lon) label {| icon_color := cell_or_blue (row !! "color") |}.

Definition point_circle (row : gmap string cell) (lat lon : cell) : layer :=
  Circle (lat, lon) 10000 (cell_or_blue (row !! "circle_color")) true 0.1%float.

Definition point_layers (row : gmap string cell) : list layer :=
  match row !! "lat", row !! "lon", row !! "info" with
  | Some lat, Some lon, Some label =>
      point_marker row lat lon label ::
      (if show_circle_of row then [point_circle row lat lon] else [])
  | _, _, _ => []
  end.

Definition with_children (m : Map) (ls : list layer) : Map :=
  {| kwargs := kwargs m; options := options m; children := children m ++ ls |}.

Definition has_required (row : gmap string cell) : Prop :=
  is_Some (row !! "lat") ∧ is_Some (row !! "lon") ∧ is_Some (row !! "info").

(** A row the loop body can draw: the three required cells are there and
    the two coordinates pass the check of a location. *)
Definition placeable (lib : Library) (row : gmap string cell) : Prop :=
  ∃ lat lon label,
    row !! "lat" = Some lat ∧ row !! "lon" = Some lon ∧ row !! "info" = Some label ∧
    valid_coord lib lat = true ∧ valid_coord lib lon = true.

(** Every cell of the sheet under a column labelled [lat] or [lon] passes
    the check of a coordinate. *)
Definition sheet_coords_valid (lib : Library) (df : DataFrame) : bool :=
  forallb (λ vs : list cell,
             forallb (λ kc : string * cell,
                        if String.eqb kc.1 "lat" || String.eqb kc.1 "lon"
                        then valid_coord lib kc.2 else true)
                     (zip (df_columns df) vs))
          (df_values df).

(** The centre is one [folium.Map] takes: the default when the caller
    leaves it out, [None], or a location that passes the check. *)
Definition accepts_center (lib : Library) (center : option json) : bool :=
  is_ok (check_map_location lib (default default_center center)).

(** The map of lines 27-50 once the centre is accepted. *)
Definition canvas (lib : Library) (center : option json) (zoom_start : option Z) : Map :=
  let kw :=
    {| kw_location := default default_center center;
       kw_zoom_start := default default_zoom_start zoom_start;
       kw_tiles := None; kw_control_scale := true; kw_prefer_canvas := true;
       kw_zoom_animation := true; kw_max_bounds := true; kw_zoom_control := true |} in
  {| kwargs := kw;
     options := <["maxZoom" := JInt 12]>
                  (<["minZoom" := JInt 5]>
                     (<["maxBounds" := max_bounds_box]> (lib_options lib kw)));
     children := [gsi_tiles] |}.

(** ** Sample inputs *)

Module Sample.

(** An option dictionary in the manner of folium: with [max_bounds=True]
    the library starts from the whole world as pan bounds. *)
Definition initial_options (kw : MapKwargs) : gmap string json :=
  {[ "zoom" := JInt (kw_zoom_start kw);
     "zoomControl" := JBool (kw_zoom_control kw);
     "preferCanvas" := JBool (kw_prefer_canvas kw);
     "maxBounds" := JArr [JArr [JInt (-90); JInt (-180)]; JArr [JInt 90; JInt 180]] ]}.

Definition vertex (lon lat : float) : json := JArr [JFloat lon; JFloat lat].

Definition triangle : json :=
  JArr [vertex 130 30; vertex 140 30; vertex 140 40; vertex 130 30].

Definition feature_collection (ring : json) : json :=
  JObj {[ "type" := JStr "FeatureCollection";
          "features" := JArr [
            JObj {[ "type" := JStr "Feature";
                    "geometry" := JObj {[ "type" := JStr "Polygon";
                                          "coordinates" := JArr [ring] ]} ]} ] ]}.

Definition japan_geo : json := feature_collection triangle.

(** A ring that leaves the world box at its second vertex. *)
Definition stray_ring : json :=
  JArr [vertex 130 30; vertex 200 95; vertex 140 40; vertex 130 30].

Definition tokyo : list cell := [CFloat 35; CFloat 139; CStr "Tokyo"].

Definition world (df : DataFrame) : World :=
  {| base_dir := "/srv/map";
     files := {[ "/srv/map/points.xlsx" := FExcel df;
                 "/srv/map/japan_boundary.geojson" := FJson japan_geo ]};
     dir_writable := true;
     stdout := [] |}.

Definition blank : Map :=
  {| kwargs := {| kw_location := default_center; kw_zoom_start := default_zoom_start;
                  kw_tiles := None; kw_control_scale := true; kw_prefer_canvas := true;
                  kw_zoom_animation := true; kw_max_bounds := true;
                  kw_zoom_control := true |};
     options := ∅; children := [] |}.

(** A row with an empty [color] cell and a circle without colour column. *)
Definition osaka : gmap string cell :=
  {[ "lat" := CFloat 34.7; "lon" := CFloat 135.5; "info" := CStr "Osaka";
     "color" := NaN; "show_circle" := CBool true ]}.

(** Two points: the first with every optional cell filled in, the second
    with the optional cells left empty except for a zero flag. *)
Definition points : DataFrame :=
  {| df_columns := ["lat"; "lon"; "info"; "color"; "show_circle"; "circle_color"];
     df_values := [tokyo ++ [CStr "red"; CBool true; CStr "green"];
                   [CFloat 34.7; CFloat 135.5; CStr "Osaka"; NaN; CInt 0; NaN]] |}.

(** One point whose [show_circle] cell was left empty. *)
Definition unset_circle : DataFrame :=
  {| df_columns := ["lat"; "lon"; "info"; "show_circle"];
     df_values := [tokyo ++ [NaN]] |}.

(** A sheet with a header row only, and no [lat] column. *)
Definition headers_only : DataFrame :=
  {| df_columns := ["lon"; "info"]; df_values := [] |}.

(** A sheet with one data row and no [lat] column. *)
Definition no_lat : DataFrame :=
  {| df_columns := ["lon"; "info"]; df_values := [[CFloat 139; CStr "Tokyo"]] |}.

(** The same directory with another boundary file. *)
Definition world_of (geo : json) (df : DataFrame) : World :=
  {| base_dir := "/srv/map";
     files := {[ "/srv/map/points.xlsx" := FExcel df;
                 "/srv/map/japan_boundary.geojson" := FJson geo ]};
     dir_writable := true;
     stdout := [] |}.

(** A feature collection without features. *)
Definition empty_collection : json :=
  JObj {[ "type" := JStr "FeatureCollection"; "features" := JArr [] ]}.

(** A country in two features; the first is a polygon with an inner ring. *)
Definition inner_ring : json :=
  JArr [vertex 134 32; vertex 136 32; vertex 136 34; vertex 134 32].

Definition island : gmap string json :=
  {[ "type" := JStr "Feature";
     "geometry" := JObj {[ "type" := JStr "Polygon";
                           "coordinates" := JArr [stray_ring] ]} ]}.

Definition mainland_geometry : gmap string json :=
  {[ "type" := JStr "Polygon"; "coordinates" := JArr [triangle; inner_ring] ]}.

Definition mainland : gmap string json :=
  {[ "type" := JStr "Feature"; "geometry" := JObj mainland_geometry ]}.

Definition two_features : gmap string json :=
  {[ "type" := JStr "FeatureCollection";
     "features" := JArr [JObj mainland; JObj island] ]}.

(** A sheet with one data row, with [lat] and without [lon]. *)
Definition no_lon : DataFrame :=
  {| df_columns := ["lat"; "info"]; df_values := [[CFloat 35; CStr "Tokyo"]] |}.

(** The first sample point with a column the script does not know. *)
Definition tokyo_row : gmap string cell :=
  {[ "lat" := CFloat 35; "lon" := CFloat 139; "info" := CStr "Tokyo" ]}.

Definition tokyo_row_with_note : gmap string cell :=
  <["note" := CStr "capital"]> tokyo_row.

(** What stands for Python's [float] on the texts of the samples. *)
Definition float_of_text (s : string) : option float :=
  if String.eqb s "35.5" then Some 35.5%float
  else if String.eqb s "nan" then Some nan
  else None.

(** A library that renders every layer. *)
Definition library : Library :=
  {| lib_options := initial_options;
     lib_float := float_of_text;
     lib_render := λ _, None |}.

(** A library that cannot write a colour given as an integer cell. *)
Definition plain_colours (l : layer) : option exn :=
  match l with
  | Marker _ _ {| icon_color := CInt _ |} => Some TypeError
  | Circle _ _ (CInt _) _ _ => Some TypeError
  | _ => None
  end.

Definition strict_library : Library :=
  {| lib_options := initial_options;
     lib_float := float_of_text;
     lib_render := plain_colours |}.

(** A sheet with the three required columns whose only row has an empty
    [lat] cell. *)
Definition blank_lat : DataFrame :=
  {| df_columns := ["lat"; "lon"; "info"];
     df_values := [[NaN; CFloat 139; CStr "Tokyo"]] |}.

(** A point with a colour given as a number. *)
Definition numbered_colour : DataFrame :=
  {| df_columns := ["lat"; "lon"; "info"; "color"];
     df_values := [tokyo ++ [CInt 3]] |}.

(** A point with a colour of its own, a true flag and an empty circle
    colour. *)
Definition kyoto : gmap string cell :=
  {[ "lat" := CFloat 35; "lon" := CFloat 135.8; "info" := CStr "Kyoto";
     "color" := CStr "red"; "show_circle" := CBool true; "circle_color" := NaN ]}.

End Sample.

(** Closed decidable facts are settled by evaluation. *)
Ltac by_decide :=
  lazymatch goal with |- ?P => apply (bool_decide_unpack P) end; vm_compute; exact I.

(** ** The error monad *)

Lemma bind_Ok {A B} (f : A → result B) (r : result A) (b : B) :
  r ≫= f = Ok b ↔ ∃ a, r = Ok a ∧ f a = Ok b.
Proof.
  destruct r as [a|e]; simpl; split.
  - intros H. by exists a.
  - by intros (a' & [= ->] & H).
  - discriminate.
  - by intros (a' & [=] & _).
Qed.

Lemma series_getitem_Some (row : gmap string cell) k c :
  row !! k = Some c → series_getitem row k = Ok c.
Proof. intros H. unfold series_getitem. by rewrite H. Qed.

Lemma series_getitem_None (row : gmap string cell) k :
  row !! k = None → series_getitem row k = Err (KeyError (KStr k)).
Proof. intros H. unfold series_getitem. by rewrite H. Qed.

(** ** The mask polygon *)

Lemma mask_geojson_Ok japan_geo ring :
  boundary_ring japan_geo = Ok ring →
  mask_geojson japan_geo =
    Ok (JObj {[ "type" := JStr "Feature";
                "geometry" := JObj {[ "type" := JStr "Polygon";
                                      "coordinates" := JArr [world_ring; ring] ]} ]}).
Proof. intros H. unfold mask_geojson. by rewrite H. Qed.

Lemma mask_geojson_Err japan_geo e :
  boundary_ring japan_geo = Err e → mask_geojson japan_geo = Err e.
Proof. intros H. unfold mask_geojson. by rewrite H. Qed.

Lemma boundary_ring_first (collection feature geometry : gmap string json)
    (features rings : list json) (ring : json) :
  collection !! "features" = Some (JArr (JObj feature :: features)) →
  feature !! "geometry" = Some (JObj geometry) →
  geometry !! "coordinates" = Some (JArr (ring :: rings)) →
  boundary_ring (JObj collection) = Ok ring.
Proof.
  intros Hf Hg Hc.
  unfold boundary_ring, getitem. rewrite Hf. simpl. rewrite Hg. simpl. by rewrite Hc.
Qed.

(** C4: for a boundary file whose first feature has a geometry with a
    first ring, that is for the ring at
    [features[0].geometry.coordinates[0]], the mask is built, its geometry
    has exactly two rings, the outer one is the closed four-corner world
    box [[180,90],[180,-90],[-180,-90],[-180,90],[180,90]] and the single
    hole is that ring of the input, unchanged. *)
Theorem mask_world_box_and_verbatim_hole (collection feature geometry : gmap string json)
    (features rings : list json) (ring : json) :
  collection !! "features" = Some (JArr (JObj feature :: features)) →
  feature !! "geometry" = Some (JObj geometry) →
  geometry !! "coordinates" = Some (JArr (ring :: rings)) →
  ∃ mask mask_geometry : gmap string json,
    mask_geojson (JObj collection) = Ok (JObj mask) ∧
    mask !! "geometry" = Some (JObj mask_geometry) ∧
    mask_geometry !! "coordinates" =
      Some (JArr [JArr [JArr [JInt 180; JInt 90]; JArr [JInt 180; JInt (-90)];
                        JArr [JInt (-180); JInt (-90)]; JArr [JInt (-180); JInt 90];
                        JArr [JInt 180; JInt 90]];
                  ring]).
Proof.
  intros Hf Hg Hc. do 2 eexists. split.
  - apply mask_geojson_Ok. by eapply boundary_ring_first.
  - split; by vm_compute.
Qed.

Lemma mask_world_box_and_verbatim_hole_witness :
  ∃ mask mask_geometry : gmap string json,
    mask_geojson (JObj Sample.two_features) = Ok (JObj mask) ∧
    mask !! "geometry" = Some (JObj mask_geometry) ∧
    mask_geometry !! "coordinates" =
      Some (JArr [JArr [JArr [JInt 180; JInt 90]; JArr [JInt 180; JInt (-90)];
                        JArr [JInt (-180); JInt (-90)]; JArr [JInt (-180); JInt 90];
                        JArr [JInt 180; JInt 90]];
                  Sample.triangle]).
Proof.
  apply (mask_world_box_and_verbatim_hole Sample.two_features Sample.mainland
           Sample.mainland_geometry [JObj Sample.island] [Sample.inner_ring]
           Sample.triangle); vm_compute; reflexivity.
Defined.

(** C8, as the code has it: the hole ring of the mask is the ring at
    [features[0].geometry.coordinates[0]] of the input, unchanged, so its
    vertices have their longitude in [[-180,180]] and their latitude in
    [[-90,90]] when those of the input ring do; nothing in the script
    checks or clamps them. *)
Theorem hole_in_world_when_input_is (collection feature geometry : gmap string json)
    (features rings : list json) (ring : json) :
  collection !! "features" = Some (JArr (JObj feature :: features)) →
  feature !! "geometry" = Some (JObj geometry) →
  geometry !! "coordinates" = Some (JArr (ring :: rings)) →
  ring_in_world ring = true →
  ∃ mask hole, mask_geojson (JObj collection) = Ok mask ∧
    hole_ring mask = Ok hole ∧ hole = ring ∧ ring_in_world hole = true.
Proof.
  intros Hf Hg Hc Hin. eexists _, ring. split.
  - apply mask_geojson_Ok. by eapply boundary_ring_first.
  - split; [by vm_compute | done].
Qed.

Lemma hole_in_world_when_input_is_witness :
  ring_in_world Sample.triangle = true ∧
  ∃ mask hole, mask_geojson (JObj Sample.two_features) = Ok mask ∧
    hole_ring mask = Ok hole ∧ hole = Sample.triangle ∧ ring_in_world hole = true.
Proof.
  split; [reflexivity|].
  apply (hole_in_world_when_input_is Sample.two_features Sample.mainland
           Sample.mainland_geometry [JObj Sample.island] [Sample.inner_ring]
           Sample.triangle); vm_compute; reflexivity.
Defined.

(** C8 as stated fails: a boundary ring with the vertex [[200, 95]] is
    copied into the mask, whose hole then leaves the world box. *)
Lemma hole_outside_world_box :
  ¬ (∀ japan_geo mask hole,
       mask_geojson japan_geo = Ok mask → hole_ring mask = Ok hole →
       ring_in_world hole = true).
Proof.
  intros H.
  specialize (H (Sample.feature_collection Sample.stray_ring) _ Sample.stray_ring
                eq_refl eq_refl).
  vm_compute in H. discriminate.
Qed.

(** ** One row *)

Lemma cell_or_blue_absent : cell_or_blue None = CStr "blue".
Proof. reflexivity. Qed.

Lemma cell_or_blue_null c : notnull c = false → cell_or_blue (Some c) = CStr "blue".
Proof. intros H. simpl. by rewrite H. Qed.

Lemma cell_or_blue_value c : notnull c = true → cell_or_blue (Some c) = c.
Proof. intros H. simpl. by rewrite H. Qed.

Lemma color_or_blue_Ok (row : gmap string cell) k :
  color_or_blue row k = Ok (cell_or_blue (row !! k)).
Proof.
  unfold color_or_blue, series_contains, series_getitem.
  destruct (row !! k) as [c|] eqn:E.
  - rewrite bool_decide_eq_true_2 by eauto. simpl.
    destruct (notnull c); simpl; [by rewrite ?E|done].
  - rewrite bool_decide_eq_false_2; [done|]. by intros [? [=]].
Qed.

Lemma with_children_nil m : with_children m [] = m.
Proof. destruct m. unfold with_children. simpl. by rewrite app_nil_r. Qed.

Lemma with_children_app m ls ks :
  with_children (with_children m ls) ks = with_children m (ls ++ ks).
Proof. unfold with_children. simpl. by rewrite app_assoc. Qed.

Lemma placeable_has_required lib row : placeable lib row → has_required row.
Proof. intros (lat & lon & label & ? & ? & ? & _). unfold has_required. eauto. Qed.

(** The loop body, in closed form: it needs the three cells, then the
    location must pass. *)
Lemma add_point_eq lib row fmap lat lon label :
  row !! "lat" = Some lat → row !! "lon" = Some lon → row !! "info" = Some label →
  add_point lib row fmap =
    if valid_coord lib lat && valid_coord lib lon
    then Ok (with_children fmap (point_layers row))
    else Err ValueError.
Proof.
  intros Hlat Hlon Hlabel. unfold add_point, point_layers.
  rewrite (series_getitem_Some _ _ _ Hlat), (series_getitem_Some _ _ _ Hlon),
    (series_getitem_Some _ _ _ Hlabel), !color_or_blue_Ok, Hlat, Hlon, Hlabel.
  simpl. unfold folium_Marker, folium_Circle, validate_location. simpl.
  destruct (valid_coord lib lat && valid_coord lib lon); simpl; [|done].
  destruct (show_circle_of row); simpl;
    unfold with_children, add_to; simpl; by rewrite <- ?app_assoc.
Qed.

Lemma add_point_Ok lib row fmap :
  placeable lib row →
  add_point lib row fmap = Ok (with_children fmap (point_layers row)).
Proof.
  intros (lat & lon & label & Hlat & Hlon & Hlabel & Hvlat & Hvlon).
  rewrite (add_point_eq lib row fmap lat lon label Hlat Hlon Hlabel).
  by rewrite Hvlat, Hvlon.
Qed.

Lemma add_point_no_lat lib row fmap :
  row !! "lat" = None → add_point lib row fmap = Err (KeyError (KStr "lat")).
Proof. intros H. unfold add_point. by rewrite (series_getitem_None _ _ H). Qed.

Lemma add_point_inv lib row fmap fmap' :
  add_point lib row fmap = Ok fmap' →
  placeable lib row ∧ fmap' = with_children fmap (point_layers row).
Proof.
  intros H.
  assert (has_required row) as ([lat Hlat] & [lon Hlon] & [label Hlabel]).
  { unfold add_point in H.
    apply bind_Ok in H as (lat & Hlat & H).
    apply bind_Ok in H as (lon & Hlon & H).
    apply bind_Ok in H as (label & Hlabel & _).
    unfold series_getitem in *. unfold has_required.
    destruct (row !! "lat"), (row !! "lon"), (row !! "info"); try discriminate.
    eauto. }
  rewrite (add_point_eq lib row fmap lat lon label Hlat Hlon Hlabel) in H.
  destruct (valid_coord lib lat) eqn:Hvlat, (valid_coord lib lon) eqn:Hvlon;
    simpl in H; try discriminate.
  split; [by exists lat, lon, label|]. by injection H.
Qed.

Lemma add_points_Ok lib rows fmap :
  Forall (placeable lib) rows →
  add_points lib rows fmap = Ok (with_children fmap (concat (map point_layers rows))).
Proof.
  intros H. revert fmap. induction H as [|row rows Hrow _ IH]; intros fmap; simpl.
  - by rewrite with_children_nil.
  - rewrite (add_point_Ok _ _ _ Hrow). simpl. by rewrite IH, with_children_app.
Qed.

Lemma add_points_inv lib rows fmap fmap' :
  add_points lib rows fmap = Ok fmap' →
  Forall (placeable lib) rows ∧
  fmap' = with_children fmap (concat (map point_layers rows)).
Proof.
  revert fmap. induction rows as [|row rows IH]; intros fmap H; simpl in *.
  - injection H as <-. by rewrite with_children_nil.
  - apply bind_Ok in H as (fmap1 & H1 & H).
    apply add_point_inv in H1 as [Hreq ->].
    apply IH in H as [Hrows ->].
    split; [by constructor|]. by rewrite with_children_app.
Qed.

(** C5: whenever the loop body completes for a row, the marker it has
    added carries the colour of the [color] cell, and ["blue"] when the
    column is absent or the cell is null; when the row is circle-enabled
    the circle it has added carries the colour of the [circle_color]
    cell, and ["blue"] when that column is absent or the cell is null. *)
Theorem colours_default_to_blue (lib : Library) (row : gmap string cell)
    (fmap fmap' : Map) :
  add_point lib row fmap = Ok fmap' →
  ∃ lat lon label,
    row !! "lat" = Some lat ∧ row !! "lon" = Some lon ∧ row !! "info" = Some label ∧
    children fmap' =
      children fmap ++
        Marker (lat, lon) label {| icon_color := cell_or_blue (row !! "color") |} ::
        (if show_circle_of row
         then [Circle (lat, lon) 10000 (cell_or_blue (row !! "circle_color")) true 0.1%float]
         else []).
Proof.
  intros H.
  apply add_point_inv in H as [(lat & lon & label & Hlat & Hlon & Hlabel & _) ->].
  exists lat, lon, label. repeat split; try done.
  unfold point_layers. by rewrite Hlat, Hlon, Hlabel.
Qed.

Lemma colours_default_to_blue_witness :
  ∃ fmap',
    add_point Sample.library Sample.kyoto Sample.blank = Ok fmap' ∧
    ∃ lat lon label,
      Sample.kyoto !! "lat" = Some lat ∧ Sample.kyoto !! "lon" = Some lon ∧
      Sample.kyoto !! "info" = Some label ∧
      children fmap' =
        [Marker (lat, lon) label {| icon_color := CStr "red" |};
         Circle (lat, lon) 10000 (CStr "blue") true 0.1%float].
Proof.
  eexists. split; [vm_compute; reflexivity|].
  apply (colours_default_to_blue Sample.library Sample.kyoto Sample.blank).
  vm_compute; reflexivity.
Defined.

(** The defaults alone: an empty [color] cell and no [circle_color]
    column. *)
Example osaka_is_blue :
  ∃ fmap', add_point Sample.library Sample.osaka Sample.blank = Ok fmap' ∧
    children fmap' =
      [Marker (CFloat 34.7, CFloat 135.5) (CStr "Osaka") {| icon_color := CStr "blue" |};
       Circle (CFloat 34.7, CFloat 135.5) 10000 (CStr "blue") true 0.1%float].
Proof. eexists. split; [vm_compute; reflexivity|]. reflexivity. Qed.

(** ** The [show_circle] flag *)

Lemma show_circle_missing (row : gmap string cell) :
  row !! "show_circle" = None → show_circle_of row = false.
Proof. intros H. unfold show_circle_of, series_get. by rewrite H. Qed.

Lemma show_circle_truthy (row : gmap string cell) c :
  row !! "show_circle" = Some c → show_circle_of row = py_bool c.
Proof. intros H. unfold show_circle_of, series_get. by rewrite H. Qed.

(** NaN, which is what an empty cell holds, is truthy, although it is
    null for [pd.notnull]. *)
Lemma py_bool_NaN : py_bool NaN = true.
Proof. reflexivity. Qed.

Lemma notnull_NaN : notnull NaN = false.
Proof. reflexivity. Qed.

(** ** Rows of a frame *)

Lemma series_lookup_absent (columns : list string) (vs : list cell) k :
  k ∉ columns → (list_to_map (zip columns vs) : gmap string cell) !! k = None.
Proof.
  intros Hk. apply not_elem_of_list_to_map_1. intros Hin. apply Hk.
  apply list_elem_of_fmap in Hin as ([k' c] & -> & Hin).
  by apply elem_of_zip_l in Hin.
Qed.

Lemma series_lookup_present (columns : list string) (vs : list cell) k :
  length vs = length columns → k ∈ columns →
  is_Some ((list_to_map (zip columns vs) : gmap string cell) !! k).
Proof.
  intros Hlen Hk.
  destruct (list_to_map (zip columns vs) !! k) as [c|] eqn:E; [by eauto|].
  apply not_elem_of_list_to_map_2 in E.
  rewrite fst_zip in E by (rewrite Hlen; reflexivity). done.
Qed.

(** A cell of a row is a cell of the sheet: it stands in the data row at
    the position of a column with that label. *)
Lemma series_lookup_cell (columns : list string) (vs : list cell) k c :
  (list_to_map (zip columns vs) : gmap string cell) !! k = Some c →
  ∃ i : nat, columns !! i = Some k ∧ vs !! i = Some c.
Proof.
  intros H. apply elem_of_list_to_map_2 in H.
  apply list_elem_of_lookup in H as [i Hi].
  apply lookup_zip_with_Some in Hi as (k' & c' & [= <- <-] & Hk & Hc).
  by exists i.
Qed.

Lemma length_iterrows df : length (iterrows df) = length (df_values df).
Proof. unfold iterrows. by rewrite length_map. Qed.

Lemma iterrows_has_required df :
  df_wf df →
  "lat" ∈ df_columns df → "lon" ∈ df_columns df → "info" ∈ df_columns df →
  Forall has_required (iterrows df).
Proof.
  intros Hwf Hlat Hlon Hinfo. unfold iterrows.
  apply Forall_fmap. eapply Forall_impl; [exact Hwf|].
  intros vs Hlen. unfold has_required; simpl.
  auto using series_lookup_present.
Qed.

Lemma sheet_coords_valid_row lib df vs k c :
  sheet_coords_valid lib df = true →
  vs ∈ df_values df →
  k = "lat"%string ∨ k = "lon"%string →
  (list_to_map (zip (df_columns df) vs) : gmap string cell) !! k = Some c →
  valid_coord lib c = true.
Proof.
  unfold sheet_coords_valid. intros Hvalid Hvs Hk Hc.
  rewrite forallb_forall in Hvalid.
  apply list_elem_of_In, Hvalid in Hvs. rewrite forallb_forall in Hvs.
  apply elem_of_list_to_map_2, list_elem_of_In, Hvs in Hc. simpl in Hc.
  by destruct Hk as [-> | ->].
Qed.

Lemma iterrows_placeable lib df :
  df_wf df →
  "lat" ∈ df_columns df → "lon" ∈ df_columns df → "info" ∈ df_columns df →
  sheet_coords_valid lib df = true →
  Forall (placeable lib) (iterrows df).
Proof.
  intros Hwf Hlat Hlon Hinfo Hvalid. unfold iterrows.
  apply Forall_fmap, Forall_forall. intros vs Hvs. simpl.
  unfold df_wf in Hwf. rewrite Forall_forall in Hwf. specialize (Hwf vs Hvs).
  destruct (series_lookup_present (df_columns df) vs "lat" Hwf Hlat) as [lat Hl1].
  destruct (series_lookup_present (df_columns df) vs "lon" Hwf Hlon) as [lon Hl2].
  destruct (series_lookup_present (df_columns df) vs "info" Hwf Hinfo) as [label Hl3].
  exists lat, lon, label. repeat split; try done.
  - exact (sheet_coords_valid_row lib df vs "lat" lat Hvalid Hvs (or_introl eq_refl) Hl1).
  - exact (sheet_coords_valid_row lib df vs "lon" lon Hvalid Hvs (or_intror eq_refl) Hl2).
Qed.

(** ** The layers of the points *)

Lemma point_layers_markers row :
  has_required row →
  ∃ lat lon label,
    row !! "lat" = Some lat ∧ row !! "lon" = Some lon ∧ row !! "info" = Some label ∧
    List.filter is_marker (point_layers row) = [point_marker row lat lon label].
Proof.
  intros ([lat Hlat] & [lon Hlon] & [label Hlabel]).
  exists lat, lon, label. unfold point_layers. rewrite Hlat, Hlon, Hlabel.
  by destruct (show_circle_of row).
Qed.

Lemma point_layers_not_geojson rows :
  List.filter is_geojson (concat (map point_layers rows)) = [].
Proof.
  induction rows as [|row rows IH]; simpl; [done|].
  rewrite List.filter_app, IH, app_nil_r. unfold point_layers.
  destruct (row !! "lat"), (row !! "lon"), (row !! "info"); try done.
  by destruct (show_circle_of row).
Qed.

(** The markers of a sheet, each tied to the cells of its data row. *)
Lemma markers_of_sheet (columns : list string) (values : list (list cell)) :
  Forall has_required
    (map (λ vs : list cell, list_to_map (zip columns vs) : gmap string cell) values) →
  Forall2 (λ (vs : list cell) (l : layer), ∃ (i j k : nat) lat lon label icon,
             columns !! i = Some "lat"%string ∧ vs !! i = Some lat ∧
             columns !! j = Some "lon"%string ∧ vs !! j = Some lon ∧
             columns !! k = Some "info"%string ∧ vs !! k = Some label ∧
             l = Marker (lat, lon) label icon)
          values
          (List.filter is_marker
             (concat (map point_layers
                (map (λ vs : list cell,
                        list_to_map (zip columns vs) : gmap string cell) values)))).
Proof.
  induction values as [|vs values IH]; simpl; intros H; [constructor|].
  apply Forall_cons in H as [Hrow Hrows].
  rewrite List.filter_app.
  destruct (point_layers_markers _ Hrow) as (lat & lon & label & Hlat & Hlon & Hlabel & ->).
  simpl. constructor; [|by apply IH].
  destruct (series_lookup_cell _ _ _ _ Hlat) as (i & ? & ?).
  destruct (series_lookup_cell _ _ _ _ Hlon) as (j & ? & ?).
  destruct (series_lookup_cell _ _ _ _ Hlabel) as (k & ? & ?).
  exists i, j, k, lat, lon, label. eexists. by repeat split.
Qed.

(** The layers of a sheet come in one block per data row. *)
Lemma blocks_of_sheet (columns : list string) (values : list (list cell)) :
  Forall has_required
    (map (λ vs : list cell, list_to_map (zip columns vs) : gmap string cell) values) →
  Forall2 (λ (vs : list cell) (block : list layer),
             let row : gmap string cell := list_to_map (zip columns vs) in
             ∃ (i j : nat) lat lon label icon circle_color,
               columns !! i = Some "lat"%string ∧ vs !! i = Some lat ∧
               columns !! j = Some "lon"%string ∧ vs !! j = Some lon ∧
               color_or_blue row "circle_color" = Ok circle_color ∧
               block = Marker (lat, lon) label icon ::
                       (if show_circle_of row
                        then [Circle (lat, lon) 10000 circle_color true 0.1%float]
                        else []))
          values
          (map point_layers
             (map (λ vs : list cell,
                     list_to_map (zip columns vs) : gmap string cell) values)).
Proof.
  induction values as [|vs values IH]; simpl; intros H; [constructor|].
  apply Forall_cons in H as [Hrow Hrows]. constructor; [|by apply IH].
  destruct Hrow as ([lat Hlat] & [lon Hlon] & [label Hlabel]).
  destruct (series_lookup_cell _ _ _ _ Hlat) as (i & ? & ?).
  destruct (series_lookup_cell _ _ _ _ Hlon) as (j & ? & ?).
  exists i, j, lat, lon, label. do 2 eexists.
  repeat (split; [done|]). split; [apply color_or_blue_Ok|].
  unfold point_layers. by rewrite Hlat, Hlon, Hlabel.
Qed.

(** ** The whole function *)

Lemma base_map_default lib zoom_start :
  base_map lib None zoom_start = Ok (canvas lib None zoom_start).
Proof. reflexivity. Qed.

Lemma base_map_Ok lib center zoom_start :
  accepts_center lib center = true →
  base_map lib center zoom_start = Ok (canvas lib center zoom_start).
Proof.
  unfold accepts_center, base_map, folium_Map. simpl.
  by destruct (check_map_location lib _) as [[]|].
Qed.

Lemma base_map_inv lib center zoom_start fmap :
  base_map lib center zoom_start = Ok fmap →
  accepts_center lib center = true ∧ fmap = canvas lib center zoom_start.
Proof.
  intros H.
  assert (accepts_center lib center = true) as Hacc.
  { unfold accepts_center. unfold base_map, folium_Map in H. simpl in H.
    by destruct (check_map_location lib _). }
  split; [done|]. rewrite (base_map_Ok _ _ _ Hacc) in H. by injection H.
Qed.

Lemma create_Ok lib fs excel_path geojson_path center zoom_start japan_geo ring df :
  accepts_center lib center = true →
  json_load fs geojson_path = Ok japan_geo →
  boundary_ring japan_geo = Ok ring →
  read_excel fs excel_path = Ok df →
  Forall (placeable lib) (iterrows df) →
  ∃ mask, mask_geojson japan_geo = Ok mask ∧
    create_japan_map_from_excel lib fs excel_path geojson_path center zoom_start =
      Ok (with_children (canvas lib center zoom_start)
            (mask_layer mask :: concat (map point_layers (iterrows df)))).
Proof.
  intros Hacc Hgeo Hring Hdf Hrows. eexists. split; [by apply mask_geojson_Ok|].
  unfold create_japan_map_from_excel.
  rewrite (base_map_Ok _ _ _ Hacc). simpl.
  rewrite Hgeo. simpl. rewrite (mask_geojson_Ok _ _ Hring). simpl.
  rewrite Hdf. simpl. by rewrite (add_points_Ok _ _ _ Hrows).
Qed.

(** Whatever the function returns was grown from the canvas by adding the
    mask and then the layers of the points. *)
Lemma create_inv lib fs excel_path geojson_path center zoom_start fmap :
  create_japan_map_from_excel lib fs excel_path geojson_path center zoom_start = Ok fmap →
  ∃ japan_geo mask df,
    accepts_center lib center = true ∧
    json_load fs geojson_path = Ok japan_geo ∧
    mask_geojson japan_geo = Ok mask ∧
    read_excel fs excel_path = Ok df ∧
    Forall (placeable lib) (iterrows df) ∧
    fmap = with_children (canvas lib center zoom_start)
             (mask_layer mask :: concat (map point_layers (iterrows df))).
Proof.
  unfold create_japan_map_from_excel. intros H.
  apply bind_Ok in H as (fmap0 & Hbase & H).
  apply base_map_inv in Hbase as [Hacc ->].
  apply bind_Ok in H as (japan_geo & Hgeo & H).
  apply bind_Ok in H as (mask & Hmask & H).
  apply bind_Ok in H as (df & Hdf & H).
  apply add_points_inv in H as [Hrows ->].
  by exists japan_geo, mask, df.
Qed.

Lemma children_canvas lib center zoom_start :
  children (canvas lib center zoom_start) = [gsi_tiles].
Proof. reflexivity. Qed.

(** C2, as the code has it: for a rectangular sheet that has the columns
    [lat], [lon] and [info] and whose cells under [lat] and [lon] all pass
    the check of a coordinate (numbers, not empty), with a boundary file
    that loads and a centre that [folium.Map] takes, the function returns
    a map whose marker layers are, in sheet order, one per data row: as
    many markers as rows, each at the [(lat, lon)] cells of its row with
    the row's [info] cell as tooltip. *)
Theorem one_marker_per_row (lib : Library)
    (fs : gmap string file) (excel_path geojson_path : string)
    (center : option json) (zoom_start : option Z)
    (japan_geo ring : json) (df : DataFrame) :
  accepts_center lib center = true →
  json_load fs geojson_path = Ok japan_geo →
  boundary_ring japan_geo = Ok ring →
  read_excel fs excel_path = Ok df →
  df_wf df →
  "lat" ∈ df_columns df → "lon" ∈ df_columns df → "info" ∈ df_columns df →
  sheet_coords_valid lib df = true →
  ∃ fmap,
    create_japan_map_from_excel lib fs excel_path geojson_path center zoom_start
      = Ok fmap ∧
    length (markers fmap) = length (df_values df) ∧
    Forall2 (λ (vs : list cell) (l : layer), ∃ (i j k : nat) lat lon label icon,
               df_columns df !! i = Some "lat"%string ∧ vs !! i = Some lat ∧
               df_columns df !! j = Some "lon"%string ∧ vs !! j = Some lon ∧
               df_columns df !! k = Some "info"%string ∧ vs !! k = Some label ∧
               l = Marker (lat, lon) label icon)
            (df_values df) (markers fmap).
Proof.
  intros Hacc Hgeo Hring Hdf Hwf Hlat Hlon Hinfo Hvalid.
  pose proof (iterrows_placeable lib df Hwf Hlat Hlon Hinfo Hvalid) as Hrows.
  destruct (create_Ok lib fs excel_path geojson_path center zoom_start
              japan_geo ring df Hacc Hgeo Hring Hdf Hrows) as (mask & _ & Hcreate).
  eexists. split; [exact Hcreate|].
  pose proof (markers_of_sheet (df_columns df) (df_values df)
                (iterrows_has_required df Hwf Hlat Hlon Hinfo)) as Hmarkers.
  unfold markers. simpl. split; [|exact Hmarkers].
  symmetry. exact (Forall2_length _ _ _ Hmarkers).
Qed.

Lemma one_marker_per_row_witness :
  ∃ fmap,
    create_japan_map_from_excel Sample.library
      (files (Sample.world Sample.points))
      "/srv/map/points.xlsx" "/srv/map/japan_boundary.geojson" None None = Ok fmap ∧
    length (markers fmap) = length (df_values Sample.points) ∧
    Forall2 (λ (vs : list cell) (l : layer), ∃ (i j k : nat) lat lon label icon,
               df_columns Sample.points !! i = Some "lat"%string ∧ vs !! i = Some lat ∧
               df_columns Sample.points !! j = Some "lon"%string ∧ vs !! j = Some lon ∧
               df_columns Sample.points !! k = Some "info"%string ∧ vs !! k = Some label ∧
               l = Marker (lat, lon) label icon)
            (df_values Sample.points) (markers fmap).
Proof.
  apply (one_marker_per_row Sample.library (files (Sample.world Sample.points))
           "/srv/map/points.xlsx" "/srv/map/japan_boundary.geojson" None None
           Sample.japan_geo Sample.triangle Sample.points).
  - reflexivity.
  - vm_compute; reflexivity.
  - vm_compute; reflexivity.
  - vm_compute; reflexivity.
  - unfold df_wf. by_decide.
  - by_decide.
  - by_decide.
  - by_decide.
  - vm_compute; reflexivity.
Defined.

(** C2 as stated fails: a sheet with the three required columns whose
    row has an empty [lat] cell makes [folium.Marker] raise [ValueError];
    no map is returned, and no marker stands for the row. *)
Lemma blank_lat_row_raises :
  ¬ (∀ (lib : Library) (fs : gmap string file) (excel_path geojson_path : string)
       (center : option json) (zoom_start : option Z)
       (japan_geo ring : json) (df : DataFrame),
       json_load fs geojson_path = Ok japan_geo →
       boundary_ring japan_geo = Ok ring →
       read_excel fs excel_path = Ok df →
       df_wf df →
       "lat" ∈ df_columns df → "lon" ∈ df_columns df → "info" ∈ df_columns df →
       ∃ fmap,
         create_japan_map_from_excel lib fs excel_path geojson_path center zoom_start
           = Ok fmap ∧
         length (markers fmap) = length (df_values df)).
Proof.
  intros H.
  destruct (H Sample.library (files (Sample.world Sample.blank_lat))
              "/srv/map/points.xlsx" "/srv/map/japan_boundary.geojson" None None
              Sample.japan_geo Sample.triangle Sample.blank_lat)
    as (fmap & Hcreate & _).
  - vm_compute; reflexivity.
  - vm_compute; reflexivity.
  - vm_compute; reflexivity.
  - unfold df_wf. by_decide.
  - by_decide.
  - by_decide.
  - by_decide.
  - vm_compute in Hcreate. discriminate.
Qed.

Example blank_lat_row_error :
  create_japan_map_from_excel Sample.library (files (Sample.world Sample.blank_lat))
    "/srv/map/points.xlsx" "/srv/map/japan_boundary.geojson" None None
  = Err ValueError.
Proof. vm_compute. reflexivity. Qed.

(** C3: in every map the function returns, the layers after the tile
    layer and the mask come in one block per data row of the sheet, in
    sheet order.  The block of a row is its marker, at the row's [lat] and
    [lon] cells, followed, exactly when the row's coerced [show_circle]
    flag is true, by one circle at the same [(lat, lon)] with radius
    10000, fill on, fill opacity 0.1 and the colour [circle_color]; a row
    whose flag is false has its marker only. *)
Theorem one_circle_per_flagged_row (lib : Library)
    (fs : gmap string file) (excel_path geojson_path : string)
    (center : option json) (zoom_start : option Z) (df : DataFrame) (fmap : Map) :
  read_excel fs excel_path = Ok df →
  create_japan_map_from_excel lib fs excel_path geojson_path center zoom_start
    = Ok fmap →
  ∃ mask blocks,
    children fmap = [gsi_tiles; mask_layer mask] ++ concat blocks ∧
    Forall2 (λ (vs : list cell) (block : list layer),
               let row : gmap string cell := list_to_map (zip (df_columns df) vs) in
               ∃ (i j : nat) lat lon label icon circle_color,
                 df_columns df !! i = Some "lat"%string ∧ vs !! i = Some lat ∧
                 df_columns df !! j = Some "lon"%string ∧ vs !! j = Some lon ∧
                 color_or_blue row "circle_color" = Ok circle_color ∧
                 block = Marker (lat, lon) label icon ::
                         (if show_circle_of row
                          then [Circle (lat, lon) 10000 circle_color true 0.1%float]
                          else []))
            (df_values df) blocks.
Proof.
  intros Hdf H.
  apply create_inv in H as (japan_geo & mask & df' & _ & _ & _ & Hdf' & Hrows & ->).
  assert (df' = df) as -> by congruence.
  eexists mask, _. split; [reflexivity|].
  apply blocks_of_sheet. unfold iterrows in Hrows.
  eapply Forall_impl; [exact Hrows|]. apply placeable_has_required.
Qed.

Lemma one_circle_per_flagged_row_witness :
  ∃ fmap,
    create_japan_map_from_excel Sample.library
      (files (Sample.world Sample.points))
      "/srv/map/points.xlsx" "/srv/map/japan_boundary.geojson" None None = Ok fmap ∧
    ∃ mask blocks,
      children fmap = [gsi_tiles; mask_layer mask] ++ concat blocks ∧
      Forall2 (λ (vs : list cell) (block : list layer),
                 let row : gmap string cell :=
                   list_to_map (zip (df_columns Sample.points) vs) in
                 ∃ (i j : nat) lat lon label icon circle_color,
                   df_columns Sample.points !! i = Some "lat"%string ∧ vs !! i = Some lat ∧
                   df_columns Sample.points !! j = Some "lon"%string ∧ vs !! j = Some lon ∧
                   color_or_blue row "circle_color" = Ok circle_color ∧
                   block = Marker (lat, lon) label icon ::
                           (if show_circle_of row
                            then [Circle (lat, lon) 10000 circle_color true 0.1%float]
                            else []))
              (df_values Sample.points) blocks.
Proof.
  eexists. split; [vm_compute; reflexivity|].
  apply (one_circle_per_flagged_row Sample.library
           (files (Sample.world Sample.points))
           "/srv/map/points.xlsx" "/srv/map/japan_boundary.geojson" None None
           Sample.points); vm_compute; reflexivity.
Defined.

(** The circles of the sample frame: the first row has a true flag and a
    green circle, the second has the flag 0 and no circle. *)
Example sample_points_circles :
  ∃ fmap,
    create_japan_map_from_excel Sample.library
      (files (Sample.world Sample.points))
      "/srv/map/points.xlsx" "/srv/map/japan_boundary.geojson" None None = Ok fmap ∧
    circles fmap = [Circle (CFloat 35, CFloat 139) 10000 (CStr "green") true 0.1%float] ∧
    markers fmap =
      [Marker (CFloat 35, CFloat 139) (CStr "Tokyo") {| icon_color := CStr "red" |};
       Marker (CFloat 34.7, CFloat 135.5) (CStr "Osaka") {| icon_color := CStr "blue" |}].
Proof. eexists. split; [vm_compute; reflexivity|]. split; reflexivity. Qed.

(** C1, on the code: a row whose [show_circle] cell is empty holds NaN
    there, [bool(NaN)] is true, and the row gets a circle. *)
Theorem empty_show_circle_cell_draws_circle :
  show_circle_of (list_to_map (zip (df_columns Sample.unset_circle)
                                   (Sample.tokyo ++ [NaN]))) = true ∧
  ∃ fmap,
    create_japan_map_from_excel Sample.library
      (files (Sample.world Sample.unset_circle))
      "/srv/map/points.xlsx" "/srv/map/japan_boundary.geojson" None None = Ok fmap ∧
    circles fmap = [Circle (CFloat 35, CFloat 139) 10000 (CStr "blue") true 0.1%float].
Proof.
  split; [reflexivity|].
  eexists. split; [vm_compute; reflexivity|]. reflexivity.
Qed.

(** C6: every map the function returns has the pan bounds
    [[20.0,122.0],[46.0,154.0]], the minimum zoom 5 and the maximum zoom 12
    in its options, whatever the arguments and whatever folium had put
    there; when the caller leaves them out, the centre is
    [36.2048, 138.2529] and the initial zoom is 5. *)
Theorem canvas_configuration (lib : Library)
    (fs : gmap string file) (excel_path geojson_path : string)
    (center : option json) (zoom_start : option Z) (fmap : Map) :
  create_japan_map_from_excel lib fs excel_path geojson_path center zoom_start = Ok fmap →
  options fmap !! "maxBounds" =
    Some (JArr [JArr [JFloat 20.0%float; JFloat 122.0%float];
                JArr [JFloat 46.0%float; JFloat 154.0%float]]) ∧
  options fmap !! "minZoom" = Some (JInt 5) ∧
  options fmap !! "maxZoom" = Some (JInt 12) ∧
  (center = None →
   kw_location (kwargs fmap) = JArr [JFloat 36.2048%float; JFloat 138.2529%float]) ∧
  (zoom_start = None → kw_zoom_start (kwargs fmap) = 5).
Proof.
  intros H.
  apply create_inv in H as (japan_geo & mask & df & _ & _ & _ & _ & _ & ->).
  simpl. repeat split.
  - rewrite lookup_insert_ne by done. rewrite lookup_insert_ne by done.
    by rewrite lookup_insert_eq.
  - rewrite lookup_insert_ne by done. by rewrite lookup_insert_eq.
  - by rewrite lookup_insert_eq.
  - by intros ->.
  - by intros ->.
Qed.

Lemma canvas_configuration_witness :
  ∃ fmap,
    create_japan_map_from_excel Sample.library
      (files (Sample.world Sample.points))
      "/srv/map/points.xlsx" "/srv/map/japan_boundary.geojson" None None = Ok fmap ∧
    options fmap !! "maxBounds" =
      Some (JArr [JArr [JFloat 20.0%float; JFloat 122.0%float];
                  JArr [JFloat 46.0%float; JFloat 154.0%float]]) ∧
    options fmap !! "minZoom" = Some (JInt 5) ∧
    options fmap !! "maxZoom" = Some (JInt 12) ∧
    ((None : option json) = None →
     kw_location (kwargs fmap) = JArr [JFloat 36.2048%float; JFloat 138.2529%float]) ∧
    ((None : option Z) = None → kw_zoom_start (kwargs fmap) = 5).
Proof.
  eexists. split; [vm_compute; reflexivity|].
  apply (canvas_configuration Sample.library (files (Sample.world Sample.points))
           "/srv/map/points.xlsx" "/srv/map/japan_boundary.geojson" None None).
  vm_compute; reflexivity.
Defined.

(** C9: every map the function returns has exactly one GeoJSON layer, the
    mask, and its style function answers, for any feature, fill colour
    gray, stroke colour gray, fill opacity 0.8 and stroke width 0. *)
Theorem mask_style_fixed (lib : Library)
    (fs : gmap string file) (excel_path geojson_path : string)
    (center : option json) (zoom_start : option Z) (fmap : Map) :
  create_japan_map_from_excel lib fs excel_path geojson_path center zoom_start = Ok fmap →
  ∃ data name style,
    List.filter is_geojson (children fmap) = [GeoJson data name style] ∧
    ∀ feature : json,
      getitem (style feature) "fillColor" = Ok (JStr "gray") ∧
      getitem (style feature) "color" = Ok (JStr "gray") ∧
      getitem (style feature) "fillOpacity" = Ok (JFloat 0.8%float) ∧
      getitem (style feature) "weight" = Ok (JInt 0).
Proof.
  intros H.
  apply create_inv in H as (japan_geo & mask & df & _ & _ & _ & _ & _ & ->).
  exists mask, "マスク"%string, mask_style. split.
  - simpl. by rewrite point_layers_not_geojson.
  - intros feature. by vm_compute.
Qed.

Lemma mask_style_fixed_witness :
  ∃ fmap,
    create_japan_map_from_excel Sample.library
      (files (Sample.world Sample.points))
      "/srv/map/points.xlsx" "/srv/map/japan_boundary.geojson" None None = Ok fmap ∧
    ∃ data name style,
      List.filter is_geojson (children fmap) = [GeoJson data name style] ∧
      ∀ feature : json,
        getitem (style feature) "fillColor" = Ok (JStr "gray") ∧
        getitem (style feature) "color" = Ok (JStr "gray") ∧
        getitem (style feature) "fillOpacity" = Ok (JFloat 0.8%float) ∧
        getitem (style feature) "weight" = Ok (JInt 0).
Proof.
  eexists. split; [vm_compute; reflexivity|].
  apply (mask_style_fixed Sample.library (files (Sample.world Sample.points))
           "/srv/map/points.xlsx" "/srv/map/japan_boundary.geojson" None None).
  vm_compute; reflexivity.
Defined.

(** ** [main] *)

Lemma main_Err lib w e :
  create_japan_map_from_excel lib (files w) (excel_path w) (geojson_path w) None None
    = Err e →
  main lib w = (Err e, w).
Proof. intros H. unfold main. by rewrite H. Qed.

Lemma main_Ok lib w fmap :
  create_japan_map_from_excel lib (files w) (excel_path w) (geojson_path w) None None
    = Ok fmap →
  dir_writable w = true →
  render_error lib fmap = None →
  (main lib w).1 = Ok () ∧
  files (main lib w).2 = <[output_path w := FHtml fmap]> (files w).
Proof.
  intros H Hw Hr. unfold main, save. rewrite H, Hw, Hr. simpl.
  split; [done|]. apply insert_insert_eq.
Qed.

(** C7, as the code has it: when the sheet has no [lat] column and at
    least one data row, the run raises and leaves the world as it was, no
    output file written; the error is [KeyError('lat')] when the boundary
    file loads. *)
Theorem missing_lat_aborts (lib : Library) (w : World) (df : DataFrame) :
  files w !! excel_path w = Some (FExcel df) →
  "lat" ∉ df_columns df →
  df_values df ≠ [] →
  ∃ e, main lib w = (Err e, w) ∧
    (is_ok (json_load (files w) (geojson_path w) ≫= mask_geojson) = true →
     e = KeyError (KStr "lat")).
Proof.
  intros Hfile Hlat Hrows.
  assert (∀ fmap, add_points lib (iterrows df) fmap = Err (KeyError (KStr "lat")))
    as Hloop.
  { intros fmap. unfold iterrows. destruct (df_values df) as [|vs rest]; [done|].
    simpl. by rewrite add_point_no_lat by by apply series_lookup_absent. }
  assert (read_excel (files w) (excel_path w) = Ok df) as Hdf.
  { unfold read_excel. by rewrite Hfile. }
  destruct (json_load (files w) (geojson_path w)) as [japan_geo|e] eqn:Hgeo.
  - destruct (mask_geojson japan_geo) as [mask|e] eqn:Hmask.
    + exists (KeyError (KStr "lat")). split; [|done].
      apply main_Err. unfold create_japan_map_from_excel.
      rewrite base_map_default. simpl.
      rewrite Hgeo. simpl. rewrite Hmask. simpl. rewrite Hdf. simpl. apply Hloop.
    + exists e. split.
      * apply main_Err. unfold create_japan_map_from_excel.
        rewrite base_map_default. simpl.
        rewrite Hgeo. simpl. by rewrite Hmask.
      * simpl. by rewrite Hmask.
  - exists e. split; [|done].
    apply main_Err. unfold create_japan_map_from_excel.
    rewrite base_map_default. simpl. by rewrite Hgeo.
Qed.

Lemma missing_lat_aborts_witness :
  ∃ e, main Sample.library (Sample.world Sample.no_lat)
         = (Err e, Sample.world Sample.no_lat) ∧
    (is_ok (json_load (files (Sample.world Sample.no_lat))
                      (geojson_path (Sample.world Sample.no_lat)) ≫= mask_geojson) = true →
     e = KeyError (KStr "lat")).
Proof.
  apply (missing_lat_aborts Sample.library (Sample.world Sample.no_lat)
           Sample.no_lat).
  - vm_compute; reflexivity.
  - by_decide.
  - simpl; discriminate.
Defined.

(** C7 as stated fails: a sheet without [lat] column and without data rows
    goes through, and the output file is written. *)
Lemma missing_lat_empty_sheet_succeeds :
  ¬ (∀ (lib : Library) (w : World) (df : DataFrame),
       files w !! excel_path w = Some (FExcel df) →
       "lat" ∉ df_columns df →
       ∃ e, (main lib w).1 = Err e ∧ files (main lib w).2 !! output_path w = None).
Proof.
  intros H.
  destruct (H Sample.library (Sample.world Sample.headers_only)
              Sample.headers_only) as (e & He & _).
  - vm_compute; reflexivity.
  - by_decide.
  - vm_compute in He. discriminate.
Qed.

(** C10: when the sheet has no data rows, whatever its columns, and the
    boundary file loads and the directory is writable, the run succeeds
    and writes a map whose layers are the base tile layer and the mask
    layer, with no marker and no circle. *)
Theorem empty_sheet_writes_base_and_mask (lib : Library)
    (w : World) (japan_geo ring : json) (df : DataFrame) :
  files w !! geojson_path w = Some (FJson japan_geo) →
  boundary_ring japan_geo = Ok ring →
  files w !! excel_path w = Some (FExcel df) →
  df_values df = [] →
  dir_writable w = true →
  ∃ fmap mask,
    (main lib w).1 = Ok () ∧
    files (main lib w).2 !! output_path w = Some (FHtml fmap) ∧
    mask_geojson japan_geo = Ok mask ∧
    children fmap = [gsi_tiles; mask_layer mask] ∧
    markers fmap = [] ∧ circles fmap = [].
Proof.
  intros Hgeo Hring Hdf Hrows Hw.
  destruct (create_Ok lib (files w) (excel_path w) (geojson_path w) None None
              japan_geo ring df) as (mask & Hmask & Hcreate).
  - reflexivity.
  - unfold json_load. by rewrite Hgeo.
  - done.
  - unfold read_excel. by rewrite Hdf.
  - unfold iterrows. rewrite Hrows. constructor.
  - unfold iterrows in Hcreate. rewrite Hrows in Hcreate. simpl in Hcreate.
    destruct (main_Ok lib w _ Hcreate Hw eq_refl) as [Hres Hfiles].
    eexists _, mask. split; [exact Hres|].
    split; [by rewrite Hfiles, lookup_insert_eq|].
    split; [exact Hmask|]. done.
Qed.

Lemma empty_sheet_writes_base_and_mask_witness :
  ∃ fmap mask,
    (main Sample.library (Sample.world Sample.headers_only)).1 = Ok () ∧
    files (main Sample.library (Sample.world Sample.headers_only)).2
      !! output_path (Sample.world Sample.headers_only) = Some (FHtml fmap) ∧
    mask_geojson Sample.japan_geo = Ok mask ∧
    children fmap = [gsi_tiles; mask_layer mask] ∧
    markers fmap = [] ∧ circles fmap = [].
Proof.
  apply (empty_sheet_writes_base_and_mask Sample.library
           (Sample.world Sample.headers_only) Sample.japan_geo Sample.triangle
           Sample.headers_only); vm_compute; reflexivity.
Defined.

(** ** Further properties of [main] *)

Lemma path_join_inj dir a b : path_join dir a = path_join dir b → a = b.
Proof.
  unfold path_join. induction dir as [|c dir IH].
  - intros H. injection H. intros H'. exact H'.
  - intros H. injection H. exact IH.
Qed.

Lemma output_path_not_excel w : output_path w ≠ excel_path w.
Proof. intros H. by apply path_join_inj in H. Qed.

Lemma output_path_not_geojson w : output_path w ≠ geojson_path w.
Proof. intros H. by apply path_join_inj in H. Qed.



(** The run above fails while rendering: the output file is there, and
    empty. *)
Example rendering_failure_leaves_empty_output :
  (main Sample.strict_library (Sample.world Sample.numbered_colour)).1 = Err TypeError ∧
  files (main Sample.strict_library (Sample.world Sample.numbered_colour)).2
    !! "/srv/map/japan_map.html" = Some FEmpty.
Proof. split; vm_compute; reflexivity. Qed.

(** X2: a run that succeeds has built the map from the two input files,
    stored it at the output path (replacing what was there), and printed
    the one completion line with that path; the two input files are as
    they were. *)
Theorem successful_run_effects (lib : Library) (w : World) :
  (main lib w).1 = Ok () →
  ∃ fmap,
    create_japan_map_from_excel lib (files w) (excel_path w) (geojson_path w) None None
      = Ok fmap ∧
    files (main lib w).2 = <[output_path w := FHtml fmap]> (files w) ∧
    stdout (main lib w).2 =
      stdout w ++ ["地図の作成が完了しました: " +:+ output_path w] ∧
    files (main lib w).2 !! excel_path w = files w !! excel_path w ∧
    files (main lib w).2 !! geojson_path w = files w !! geojson_path w.
Proof.
  unfold main, save.
  destruct (create_japan_map_from_excel _ _ _ _ _ _) as [fmap|e'] eqn:Hcreate; [|done].
  destruct (dir_writable w); [|done].
  destruct (render_error lib fmap); [done|]. simpl. intros _.
  exists fmap. rewrite insert_insert_eq. repeat split.
  - apply lookup_insert_ne, output_path_not_excel.
  - apply lookup_insert_ne, output_path_not_geojson.
Qed.

Lemma successful_run_effects_witness :
  ∃ fmap,
    create_japan_map_from_excel Sample.library
      (files (Sample.world Sample.points))
      (excel_path (Sample.world Sample.points))
      (geojson_path (Sample.world Sample.points)) None None = Ok fmap ∧
    files (main Sample.library (Sample.world Sample.points)).2
      = <[output_path (Sample.world Sample.points) := FHtml fmap]>
          (files (Sample.world Sample.points)) ∧
    stdout (main Sample.library (Sample.world Sample.points)).2 =
      stdout (Sample.world Sample.points) ++
        ["地図の作成が完了しました: " +:+ output_path (Sample.world Sample.points)] ∧
    files (main Sample.library (Sample.world Sample.points)).2
      !! excel_path (Sample.world Sample.points)
      = files (Sample.world Sample.points) !! excel_path (Sample.world Sample.points) ∧
    files (main Sample.library (Sample.world Sample.points)).2
      !! geojson_path (Sample.world Sample.points)
      = files (Sample.world Sample.points) !! geojson_path (Sample.world Sample.points).
Proof.
  apply (successful_run_effects Sample.library (Sample.world Sample.points)).
  vm_compute; reflexivity.
Defined.

(** ** Further properties of the function *)

(** A centre that is no location stops the function at line 27, before
    any file is looked at. *)
Example malformed_centre_raises_first (lib : Library) (fs : gmap string file)
    (excel_path geojson_path : string) (zoom_start : option Z) :
  create_japan_map_from_excel lib fs excel_path geojson_path (Some (JInt 36)) zoom_start
    = Err TypeError ∧
  create_japan_map_from_excel lib fs excel_path geojson_path
    (Some (JArr [JFloat 36; JFloat nan])) zoom_start = Err ValueError.
Proof. split; reflexivity. Qed.

(** X4: the boundary comes before the sheet.  With a centre that
    [folium.Map] takes, when the boundary file cannot be loaded or has no
    ring where the script looks for it, the function raises that error,
    whatever the spreadsheet is. *)
Theorem boundary_failure_precedes_sheet (lib : Library)
    (fs : gmap string file) (excel_path geojson_path : string)
    (center : option json) (zoom_start : option Z) (e : exn) :
  accepts_center lib center = true →
  json_load fs geojson_path ≫= mask_geojson = Err e →
  create_japan_map_from_excel lib fs excel_path geojson_path center zoom_start = Err e.
Proof.
  intros Hacc. unfold create_japan_map_from_excel.
  rewrite (base_map_Ok _ _ _ Hacc). simpl.
  destruct (json_load fs geojson_path) as [japan_geo|e1]; simpl.
  - destruct (mask_geojson japan_geo) as [mask|e2]; simpl; [discriminate|].
    by intros [= ->].
  - by intros [= ->].
Qed.

Lemma boundary_failure_precedes_sheet_witness :
  create_japan_map_from_excel Sample.library
    (files (Sample.world_of Sample.empty_collection Sample.no_lat))
    "/srv/map/missing.xlsx" "/srv/map/japan_boundary.geojson" None None
  = Err IndexError.
Proof.
  apply (boundary_failure_precedes_sheet Sample.library
           (files (Sample.world_of Sample.empty_collection Sample.no_lat))
           "/srv/map/missing.xlsx" "/srv/map/japan_boundary.geojson" None None IndexError).
  - reflexivity.
  - vm_compute; reflexivity.
Defined.

Lemma has_required_columns (columns : list string) (vs : list cell) :
  has_required (list_to_map (zip columns vs)) →
  "lat" ∈ columns ∧ "lon" ∈ columns ∧ "info" ∈ columns.
Proof.
  intros (Hlat & Hlon & Hinfo).
  repeat split.
  - destruct (decide ("lat" ∈ columns)) as [|Hn]; [done|].
    rewrite (series_lookup_absent _ vs _ Hn) in Hlat. by destruct Hlat.
  - destruct (decide ("lon" ∈ columns)) as [|Hn]; [done|].
    rewrite (series_lookup_absent _ vs _ Hn) in Hlon. by destruct Hlon.
  - destruct (decide ("info" ∈ columns)) as [|Hn]; [done|].
    rewrite (series_lookup_absent _ vs _ Hn) in Hinfo. by destruct Hinfo.
Qed.

Lemma placeable_coords_valid lib (columns : list string) (values : list (list cell)) :
  NoDup columns →
  Forall (λ vs : list cell, length vs = length columns) values →
  Forall (placeable lib)
    (map (λ vs : list cell, list_to_map (zip columns vs) : gmap string cell) values) →
  sheet_coords_valid lib {| df_columns := columns; df_values := values |} = true.
Proof.
  intros Hnodup Hwf Hrows. unfold sheet_coords_valid. simpl.
  apply forallb_forall. intros vs Hvs. apply forallb_forall. intros [k c] Hkc. simpl.
  apply list_elem_of_In in Hvs. apply list_elem_of_In in Hkc.
  rewrite Forall_forall in Hwf. specialize (Hwf vs Hvs).
  rewrite Forall_fmap, Forall_forall in Hrows.
  destruct (Hrows vs Hvs) as (lat & lon & label & Hlat & Hlon & _ & Hvlat & Hvlon).
  assert ((list_to_map (zip columns vs) : gmap string cell) !! k = Some c) as Hk.
  { apply elem_of_list_to_map_1; [|done].
    rewrite fst_zip by (rewrite Hwf; reflexivity). done. }
  destruct (String.eqb_spec k "lat") as [->|_]; simpl; [congruence|].
  destruct (String.eqb_spec k "lon") as [->|_]; simpl; [congruence|done].
Qed.

(** X5: once the centre is accepted, the boundary is loaded and the sheet
    (rectangular, with distinct column labels) is read, the function
    returns a map exactly when the sheet has no data row, or has the three
    columns [lat], [lon], [info] and only valid coordinates under [lat]
    and [lon]. *)
Theorem succeeds_iff_rows_placeable (lib : Library)
    (fs : gmap string file) (excel_path geojson_path : string)
    (center : option json) (zoom_start : option Z)
    (japan_geo ring : json) (df : DataFrame) :
  accepts_center lib center = true →
  json_load fs geojson_path = Ok japan_geo →
  boundary_ring japan_geo = Ok ring →
  read_excel fs excel_path = Ok df →
  df_wf df →
  NoDup (df_columns df) →
  is_ok (create_japan_map_from_excel lib fs excel_path geojson_path center zoom_start)
    = true
  ↔ df_values df = [] ∨
    ("lat" ∈ df_columns df ∧ "lon" ∈ df_columns df ∧ "info" ∈ df_columns df ∧
     sheet_coords_valid lib df = true).
Proof.
  intros Hacc Hgeo Hring Hdf Hwf Hnodup. split.
  - destruct (create_japan_map_from_excel _ _ _ _ _ _) as [fmap|e] eqn:Hcreate; [|done].
    intros _.
    apply create_inv in Hcreate as (? & ? & df' & _ & _ & _ & Hdf' & Hrows & _).
    assert (df' = df) as -> by congruence.
    destruct df as [columns values]. unfold iterrows, df_wf in *. simpl in *.
    destruct values as [|vs rest]; [by left|]. right.
    assert ("lat" ∈ columns ∧ "lon" ∈ columns ∧ "info" ∈ columns) as (? & ? & ?).
    { apply Forall_cons in Hrows as [Hrow _].
      eapply has_required_columns, placeable_has_required, Hrow. }
    repeat split; try done. by apply placeable_coords_valid.
  - intros Hcols.
    assert (Forall (placeable lib) (iterrows df)) as Hrows.
    { destruct Hcols as [Hnil|(? & ? & ? & ?)].
      - unfold iterrows. rewrite Hnil. constructor.
      - by apply iterrows_placeable. }
    destruct (create_Ok lib fs excel_path geojson_path center zoom_start
                japan_geo ring df Hacc Hgeo Hring Hdf Hrows) as (mask & _ & ->). done.
Qed.

Lemma succeeds_iff_rows_placeable_witness :
  is_ok (create_japan_map_from_excel Sample.library
           (files (Sample.world Sample.blank_lat))
           "/srv/map/points.xlsx" "/srv/map/japan_boundary.geojson" None None) = true
  ↔ df_values Sample.blank_lat = [] ∨
    ("lat" ∈ df_columns Sample.blank_lat ∧ "lon" ∈ df_columns Sample.blank_lat ∧
     "info" ∈ df_columns Sample.blank_lat ∧
     sheet_coords_valid Sample.library Sample.blank_lat = true).
Proof.
  apply (succeeds_iff_rows_placeable Sample.library
           (files (Sample.world Sample.blank_lat))
           "/srv/map/points.xlsx" "/srv/map/japan_boundary.geojson" None None
           Sample.japan_geo Sample.triangle Sample.blank_lat).
  - reflexivity.
  - vm_compute; reflexivity.
  - vm_compute; reflexivity.
  - vm_compute; reflexivity.
  - unfold df_wf. by_decide.
  - by_decide.
Defined.

(** X6: with a centre that [folium.Map] takes and at least one data row,
    the [KeyError] names the first of [lat], [lon], [info], in this order,
    that the sheet lacks. *)
Theorem first_missing_column_is_reported (lib : Library)
    (fs : gmap string file) (excel_path geojson_path : string)
    (center : option json) (zoom_start : option Z)
    (japan_geo ring : json) (df : DataFrame)
    (present : list string) (k : string) (rest : list string) :
  accepts_center lib center = true →
  json_load fs geojson_path = Ok japan_geo →
  boundary_ring japan_geo = Ok ring →
  read_excel fs excel_path = Ok df →
  df_wf df →
  df_values df ≠ [] →
  ["lat"; "lon"; "info"]%string = present ++ k :: rest →
  Forall (λ c, c ∈ df_columns df) present →
  k ∉ df_columns df →
  create_japan_map_from_excel lib fs excel_path geojson_path center zoom_start
    = Err (KeyError (KStr k)).
Proof.
  intros Hacc Hgeo Hring Hdf Hwf Hrows Hsplit Hpresent Hk.
  unfold create_japan_map_from_excel.
  rewrite (base_map_Ok _ _ _ Hacc). simpl.
  rewrite Hgeo. simpl. rewrite (mask_geojson_Ok _ _ Hring). simpl.
  rewrite Hdf. simpl. unfold iterrows. unfold df_wf in Hwf.
  destruct (df_values df) as [|vs others] eqn:Hvalues; [done|].
  apply Forall_cons in Hwf as [Hlen _]. simpl.
  set (row := list_to_map (zip (df_columns df) vs) : gmap string cell).
  assert (row !! k = None) as Hnone by by apply series_lookup_absent.
  assert (∀ c, c ∈ present → ∃ v, series_getitem row c = Ok v) as Hsome.
  { intros c Hc. rewrite Forall_forall in Hpresent.
    destruct (series_lookup_present (df_columns df) vs c Hlen (Hpresent c Hc)) as [v Hv].
    exists v. by apply series_getitem_Some. }
  unfold add_point.
  destruct present as [|c1 [|c2 [|c3 more]]]; simplify_eq/=.
  - by rewrite (series_getitem_None _ _ Hnone).
  - destruct (Hsome "lat"%string) as [v ->]; [set_solver|]. simpl.
    by rewrite (series_getitem_None _ _ Hnone).
  - destruct (Hsome "lat"%string) as [v ->]; [set_solver|]. simpl.
    destruct (Hsome "lon"%string) as [v' ->]; [set_solver|]. simpl.
    by rewrite (series_getitem_None _ _ Hnone).
  - by destruct more.
Qed.

Lemma first_missing_column_is_reported_witness :
  create_japan_map_from_excel Sample.library
    (files (Sample.world Sample.no_lon))
    "/srv/map/points.xlsx" "/srv/map/japan_boundary.geojson" None None
  = Err (KeyError (KStr "lon")).
Proof.
  apply (first_missing_column_is_reported Sample.library
           (files (Sample.world Sample.no_lon))
           "/srv/map/points.xlsx" "/srv/map/japan_boundary.geojson" None None
           Sample.japan_geo Sample.triangle Sample.no_lon
           ["lat"%string] "lon"%string ["info"%string]).
  - reflexivity.
  - vm_compute; reflexivity.
  - vm_compute; reflexivity.
  - vm_compute; reflexivity.
  - unfold df_wf. by_decide.
  - simpl; discriminate.
  - reflexivity.
  - by_decide.
  - by_decide.
Defined.

(** ** Further properties of the layers *)

Lemma point_layers_not_tile rows :
  List.filter is_tile (concat (map point_layers rows)) = [].
Proof.
  induction rows as [|row rows IH]; simpl; [done|].
  rewrite List.filter_app, IH, app_nil_r. unfold point_layers.
  destruct (row !! "lat"), (row !! "lon"), (row !! "info"); try done.
  by destruct (show_circle_of row).
Qed.

Lemma point_layers_counts rows :
  Forall has_required rows →
  length (List.filter is_circle (concat (map point_layers rows)))
    = length (List.filter show_circle_of rows) ∧
  length (concat (map point_layers rows))
    = (length rows + length (List.filter show_circle_of rows))%nat.
Proof.
  induction 1 as [|row rows Hrow _ [IHc IHl]]; simpl; [done|].
  rewrite List.filter_app, !length_app, IHc, IHl.
  destruct Hrow as ([lat Hlat] & [lon Hlon] & [label Hlabel]).
  unfold point_layers. rewrite Hlat, Hlon, Hlabel.
  destruct (show_circle_of row); simpl; lia.
Qed.

(** X7: every map the function returns starts with the one base tile
    layer, the GSI tiles with their attribution, not an overlay; no other
    layer is a tile layer. *)
Theorem tile_layer_first_and_only (lib : Library)
    (fs : gmap string file) (excel_path geojson_path : string)
    (center : option json) (zoom_start : option Z) (fmap : Map) :
  create_japan_map_from_excel lib fs excel_path geojson_path center zoom_start = Ok fmap →
  children fmap !! 0%nat =
    Some (TileLayer "https://cyberjapandata.gsi.go.jp/xyz/std/{z}/{x}/{y}.png"
                    "地図出典：国土地理院" "国土地理院タイル" false true) ∧
  List.filter is_tile (children fmap) =
    [TileLayer "https://cyberjapandata.gsi.go.jp/xyz/std/{z}/{x}/{y}.png"
               "地図出典：国土地理院" "国土地理院タイル" false true].
Proof.
  intros H.
  apply create_inv in H as (japan_geo & mask & df & _ & _ & _ & _ & _ & ->).
  split; [done|]. simpl. by rewrite point_layers_not_tile.
Qed.

Lemma tile_layer_first_and_only_witness :
  ∃ fmap,
    create_japan_map_from_excel Sample.library
      (files (Sample.world Sample.points))
      "/srv/map/points.xlsx" "/srv/map/japan_boundary.geojson" None None = Ok fmap ∧
    children fmap !! 0%nat =
      Some (TileLayer "https://cyberjapandata.gsi.go.jp/xyz/std/{z}/{x}/{y}.png"
                      "地図出典：国土地理院" "国土地理院タイル" false true) ∧
    List.filter is_tile (children fmap) =
      [TileLayer "https://cyberjapandata.gsi.go.jp/xyz/std/{z}/{x}/{y}.png"
                 "地図出典：国土地理院" "国土地理院タイル" false true].
Proof.
  eexists. split; [vm_compute; reflexivity|].
  apply (tile_layer_first_and_only Sample.library
           (files (Sample.world Sample.points))
           "/srv/map/points.xlsx" "/srv/map/japan_boundary.geojson" None None).
  vm_compute; reflexivity.
Defined.

(** X8: a returned map has no layer besides the tile layer, the mask, the
    markers and the circles: with [n] data rows of which [c] have a true
    flag it has [c] circles and [2 + n + c] layers (no layer control is
    added). *)
Theorem layer_count (lib : Library)
    (fs : gmap string file) (excel_path geojson_path : string)
    (center : option json) (zoom_start : option Z) (df : DataFrame) (fmap : Map) :
  read_excel fs excel_path = Ok df →
  create_japan_map_from_excel lib fs excel_path geojson_path center zoom_start = Ok fmap →
  length (circles fmap) = length (List.filter show_circle_of (iterrows df)) ∧
  length (children fmap) =
    (2 + length (df_values df) + length (List.filter show_circle_of (iterrows df)))%nat.
Proof.
  intros Hdf H.
  apply create_inv in H as (japan_geo & mask & df' & _ & _ & _ & Hdf' & Hrows & ->).
  assert (df' = df) as -> by congruence.
  assert (Forall has_required (iterrows df)) as Hreq
    by (eapply Forall_impl; [exact Hrows|apply placeable_has_required]).
  destruct (point_layers_counts _ Hreq) as [Hc Hl].
  unfold circles. simpl. rewrite Hc, Hl, length_iterrows. split; [done|lia].
Qed.

Lemma layer_count_witness :
  ∃ fmap,
    create_japan_map_from_excel Sample.library
      (files (Sample.world Sample.points))
      "/srv/map/points.xlsx" "/srv/map/japan_boundary.geojson" None None = Ok fmap ∧
    length (circles fmap) = 1%nat ∧ length (children fmap) = 5%nat.
Proof.
  eexists. split; [vm_compute; reflexivity|].
  apply (layer_count Sample.library (files (Sample.world Sample.points))
           "/srv/map/points.xlsx" "/srv/map/japan_boundary.geojson" None None
           Sample.points); vm_compute; reflexivity.
Defined.

(** X9: the script writes the three option entries [maxBounds], [minZoom]
    and [maxZoom] and no other: every other entry of a returned map is the
    one folium derived from the keyword arguments, and those are the
    centre, the initial zoom, no default tiles, and the five switches
    on. *)
Theorem other_options_untouched (lib : Library)
    (fs : gmap string file) (excel_path geojson_path : string)
    (center : option json) (zoom_start : option Z) (fmap : Map) :
  create_japan_map_from_excel lib fs excel_path geojson_path center zoom_start = Ok fmap →
  kwargs fmap =
    {| kw_location := default default_center center;
       kw_zoom_start := default default_zoom_start zoom_start;
       kw_tiles := None; kw_control_scale := true; kw_prefer_canvas := true;
       kw_zoom_animation := true; kw_max_bounds := true; kw_zoom_control := true |} ∧
  ∀ k : string, k ≠ "maxBounds" → k ≠ "minZoom" → k ≠ "maxZoom" →
    options fmap !! k = lib_options lib (kwargs fmap) !! k.
Proof.
  intros H.
  apply create_inv in H as (japan_geo & mask & df & _ & _ & _ & _ & _ & ->).
  split; [done|]. intros k H1 H2 H3. simpl.
  by rewrite !lookup_insert_ne.
Qed.

Lemma other_options_untouched_witness :
  ∃ fmap,
    create_japan_map_from_excel Sample.library
      (files (Sample.world Sample.points))
      "/srv/map/points.xlsx" "/srv/map/japan_boundary.geojson"
      (Some (JArr [JFloat 35; JFloat 135])) (Some 7) = Ok fmap ∧
    kwargs fmap =
      {| kw_location := JArr [JFloat 35; JFloat 135];
         kw_zoom_start := 7;
         kw_tiles := None; kw_control_scale := true; kw_prefer_canvas := true;
         kw_zoom_animation := true; kw_max_bounds := true; kw_zoom_control := true |} ∧
    ∀ k : string, k ≠ "maxBounds" → k ≠ "minZoom" → k ≠ "maxZoom" →
      options fmap !! k = Sample.initial_options (kwargs fmap) !! k.
Proof.
  eexists. split; [vm_compute; reflexivity|].
  apply (other_options_untouched Sample.library
           (files (Sample.world Sample.points))
           "/srv/map/points.xlsx" "/srv/map/japan_boundary.geojson"
           (Some (JArr [JFloat 35; JFloat 135])) (Some 7)).
  vm_compute; reflexivity.
Defined.

Lemma add_point_Err_any_map lib row fmap fmap' e :
  add_point lib row fmap = Err e → add_point lib row fmap' = Err e.
Proof.
  unfold add_point. rewrite !color_or_blue_Ok.
  destruct (series_getitem row "lat") as [lat|e1]; simpl; [|done].
  destruct (series_getitem row "lon") as [lon|e2]; simpl; [|done].
  destruct (series_getitem row "info") as [label|e3]; simpl; [|done].
  destruct (folium_Marker lib _ _ _) as [marker|e4]; simpl; [|done].
  destruct (show_circle_of row); [|done].
  by destruct (folium_Circle lib _ _ _ _ _) as [circle|e5]; simpl.
Qed.

Lemma add_points_any_map lib rows fmap fmap' :
  children fmap' = children fmap →
  match add_points lib rows fmap with
  | Ok m => ∃ m', add_points lib rows fmap' = Ok m' ∧ children m' = children m
  | Err e => add_points lib rows fmap' = Err e
  end.
Proof.
  intros Hchildren. destruct (add_points lib rows fmap) as [m|e] eqn:H.
  - apply add_points_inv in H as [Hrows ->].
    eexists. split; [by apply add_points_Ok|]. simpl. by rewrite Hchildren.
  - clear Hchildren. revert fmap fmap' H.
    induction rows as [|row rows IH]; intros fmap fmap' H; simpl in *; [done|].
    destruct (add_point lib row fmap) as [m1|e1] eqn:H1; simpl in H.
    + apply add_point_inv in H1 as [Hreq ->].
      rewrite (add_point_Ok _ _ fmap' Hreq). simpl. by eapply IH.
    + injection H as ->. by rewrite (add_point_Err_any_map _ _ _ fmap' _ H1).
Qed.

(** X10: among the centres [folium.Map] takes, the centre and the
    initial zoom have no influence on what is drawn: with other values
    for them the function fails with the same error, or returns a map
    with the same layers. *)
Theorem layers_independent_of_view (lib : Library)
    (fs : gmap string file) (excel_path geojson_path : string)
    (center center' : option json) (zoom_start zoom_start' : option Z) :
  accepts_center lib center = true →
  accepts_center lib center' = true →
  match create_japan_map_from_excel lib fs excel_path geojson_path center zoom_start with
  | Ok fmap =>
      ∃ fmap',
        create_japan_map_from_excel lib fs excel_path geojson_path center' zoom_start'
          = Ok fmap' ∧
        children fmap' = children fmap
  | Err e =>
      create_japan_map_from_excel lib fs excel_path geojson_path center' zoom_start'
        = Err e
  end.
Proof.
  intros Hacc Hacc'. unfold create_japan_map_from_excel.
  rewrite (base_map_Ok _ _ _ Hacc), (base_map_Ok _ _ _ Hacc'). simpl.
  destruct (json_load fs geojson_path) as [japan_geo|e1]; simpl; [|done].
  destruct (mask_geojson japan_geo) as [mask|e2]; simpl; [|done].
  destruct (read_excel fs excel_path) as [df|e3]; simpl; [|done].
  exact (add_points_any_map lib (iterrows df)
           (add_to (mask_layer mask) (canvas lib center zoom_start))
           (add_to (mask_layer mask) (canvas lib center' zoom_start')) eq_refl).
Qed.

Lemma layers_independent_of_view_witness :
  match create_japan_map_from_excel Sample.library
          (files (Sample.world Sample.points))
          "/srv/map/points.xlsx" "/srv/map/japan_boundary.geojson" None None with
  | Ok fmap =>
      ∃ fmap',
        create_japan_map_from_excel Sample.library
          (files (Sample.world Sample.points))
          "/srv/map/points.xlsx" "/srv/map/japan_boundary.geojson"
          (Some (JArr [JFloat 35; JFloat 135])) (Some 7) = Ok fmap' ∧
        children fmap' = children fmap
  | Err e =>
      create_japan_map_from_excel Sample.library
        (files (Sample.world Sample.points))
        "/srv/map/points.xlsx" "/srv/map/japan_boundary.geojson"
        (Some (JArr [JFloat 35; JFloat 135])) (Some 7) = Err e
  end.
Proof.
  apply (layers_independent_of_view Sample.library
           (files (Sample.world Sample.points))
           "/srv/map/points.xlsx" "/srv/map/japan_boundary.geojson"
           None (Some (JArr [JFloat 35; JFloat 135])) None (Some 7)); reflexivity.
Defined.

(** ** Further properties of a row *)

(** X11: the loop body reads the six columns [lat], [lon], [info],
    [color], [show_circle], [circle_color] and no other: two rows that
    agree on these are treated alike, whatever else the sheet holds. *)
Theorem unknown_columns_ignored (lib : Library) (row row' : gmap string cell)
    (fmap : Map) :
  (∀ k : string,
     k ∈ ["lat"; "lon"; "info"; "color"; "show_circle"; "circle_color"]%string →
     row' !! k = row !! k) →
  add_point lib row' fmap = add_point lib row fmap.
Proof.
  intros H.
  assert (row' !! "lat" = row !! "lat") as Hlat by (apply H; set_solver).
  assert (row' !! "lon" = row !! "lon") as Hlon by (apply H; set_solver).
  assert (row' !! "info" = row !! "info") as Hinfo by (apply H; set_solver).
  assert (row' !! "color" = row !! "color") as Hcolor by (apply H; set_solver).
  assert (row' !! "show_circle" = row !! "show_circle") as Hflag
    by (apply H; set_solver).
  assert (row' !! "circle_color" = row !! "circle_color") as Hcircle
    by (apply H; set_solver).
  unfold add_point, show_circle_of, series_get, series_getitem.
  rewrite !color_or_blue_Ok. by rewrite Hlat, Hlon, Hinfo, Hcolor, Hflag, Hcircle.
Qed.

Lemma unknown_columns_ignored_witness :
  add_point Sample.library Sample.tokyo_row_with_note Sample.blank
    = add_point Sample.library Sample.tokyo_row Sample.blank.
Proof.
  apply (unknown_columns_ignored Sample.library Sample.tokyo_row
           Sample.tokyo_row_with_note Sample.blank).
  intros k Hk.
  repeat (apply elem_of_cons in Hk as [->|Hk]; [vm_compute; reflexivity|]).
  by apply elem_of_nil in Hk.
Defined.

(** X12: the coercion of line 96, cell by cell.  The flag is false exactly
    when the row has no [show_circle] label, or the cell is [False], the
    integer 0, a float equal to 0.0, or the empty text; every other cell,
    the empty (NaN) cell included, makes it true. *)
Theorem show_circle_false_iff (row : gmap string cell) :
  show_circle_of row = false ↔
    row !! "show_circle" = None ∨
    row !! "show_circle" = Some (CBool false) ∨
    row !! "show_circle" = Some (CInt 0) ∨
    row !! "show_circle" = Some (CStr "") ∨
    ∃ f, row !! "show_circle" = Some (CFloat f) ∧ PrimFloat.eqb f 0%float = true.
Proof.
  unfold show_circle_of, series_get.
  destruct (row !! "show_circle") as [[b|z|f|s]|]; simpl.
  - split; [intros ->; auto|]. intros [|[[= ->]|[|[|(? & ? & _)]]]]; done.
  - rewrite negb_false_iff, Z.eqb_eq. split; [intros ->; auto|].
    intros [|[|[[= ->]|[|(? & ? & _)]]]]; done.
  - rewrite negb_false_iff. split; [intros H; do 4 right; eauto|].
    intros [|[|[|[|(? & [= ->] & H)]]]]; done.
  - rewrite negb_false_iff, String.eqb_eq. split; [intros ->; auto|].
    intros [|[|[|[[= ->]|(? & ? & _)]]]]; done.
  - split; [auto|done].
Qed.

(** ** Further properties of the mask *)

(** X14: of the boundary file the script reads the first ring of the
    first feature and nothing else: further features, further rings of
    the first feature (its holes) and the declared geometry type do not
    reach the mask. *)
Theorem only_first_ring_of_first_feature (collection feature geometry : gmap string json)
    (features rings : list json) (ring : json) :
  collection !! "features" = Some (JArr (JObj feature :: features)) →
  feature !! "geometry" = Some (JObj geometry) →
  geometry !! "coordinates" = Some (JArr (ring :: rings)) →
  mask_geojson (JObj collection) =
    Ok (JObj {[ "type" := JStr "Feature";
                "geometry" := JObj {[ "type" := JStr "Polygon";
                                      "coordinates" := JArr [world_ring; ring] ]} ]}).
Proof.
  intros Hf Hg Hc. apply mask_geojson_Ok.
  unfold boundary_ring, getitem. rewrite Hf. simpl. rewrite Hg. simpl. by rewrite Hc.
Qed.

Lemma only_first_ring_of_first_feature_witness :
  mask_geojson (JObj Sample.two_features) =
    Ok (JObj {[ "type" := JStr "Feature";
                "geometry" := JObj {[ "type" := JStr "Polygon";
                                      "coordinates" := JArr [world_ring; Sample.triangle] ]} ]}).
Proof.
  apply (only_first_ring_of_first_feature Sample.two_features Sample.mainland
           Sample.mainland_geometry [JObj Sample.island] [Sample.inner_ring]
           Sample.triangle); vm_compute; reflexivity.
Defined.

(** X15: a feature collection without features stops the run with an
    [IndexError]; nothing is written, whatever the spreadsheet. *)
Theorem empty_feature_collection_aborts (lib : Library)
    (w : World) (collection : gmap string json) :
  files w !! geojson_path w = Some (FJson (JObj collection)) →
  collection !! "features" = Some (JArr []) →
  main lib w = (Err IndexError, w).
Proof.
  intros Hfile Hfeatures. apply main_Err.
  unfold create_japan_map_from_excel, json_load.
  rewrite base_map_default. simpl. rewrite Hfile. simpl.
  unfold mask_geojson, boundary_ring, getitem. by rewrite Hfeatures.
Qed.

Lemma empty_feature_collection_aborts_witness :
  main Sample.library (Sample.world_of Sample.empty_collection Sample.points)
    = (Err IndexError, Sample.world_of Sample.empty_collection Sample.points).
Proof.
  apply (empty_feature_collection_aborts Sample.library
           (Sample.world_of Sample.empty_collection Sample.points)
           {[ "type" := JStr "FeatureCollection"; "features" := JArr [] ]});
    vm_compute; reflexivity.
Defined.

(** X16: in every returned map the second layer, right above the tiles, is
    the mask built from the boundary file: its data are the world box with
    the file's ring as hole, under the name of the mask. *)
Theorem mask_is_second_layer (lib : Library)
    (fs : gmap string file) (excel_path geojson_path : string)
    (center : option json) (zoom_start : option Z) (japan_geo : json) (fmap : Map) :
  json_load fs geojson_path = Ok japan_geo →
  create_japan_map_from_excel lib fs excel_path geojson_path center zoom_start = Ok fmap →
  ∃ ring style,
    boundary_ring japan_geo = Ok ring ∧
    children fmap !! 1%nat =
      Some (GeoJson
              (JObj {[ "type" := JStr "Feature";
                       "geometry" := JObj {[ "type" := JStr "Polygon";
                                             "coordinates" := JArr [world_ring; ring] ]} ]})
              "マスク" style).
Proof.
  intros Hgeo H.
  apply create_inv in H as (japan_geo' & mask & df & _ & Hgeo' & Hmask & _ & _ & ->).
  assert (japan_geo' = japan_geo) as -> by congruence.
  unfold mask_geojson in Hmask. apply bind_Ok in Hmask as (ring & Hring & [= <-]).
  by exists ring, mask_style.
Qed.

Lemma mask_is_second_layer_witness :
  ∃ fmap,
    create_japan_map_from_excel Sample.library
      (files (Sample.world Sample.points))
      "/srv/map/points.xlsx" "/srv/map/japan_boundary.geojson" None None = Ok fmap ∧
    ∃ ring style,
      boundary_ring Sample.japan_geo = Ok ring ∧
      children fmap !! 1%nat =
        Some (GeoJson
                (JObj {[ "type" := JStr "Feature";
                         "geometry" := JObj {[ "type" := JStr "Polygon";
                                               "coordinates" := JArr [world_ring; ring] ]} ]})
                "マスク" style).
Proof.
  eexists. split; [vm_compute; reflexivity|].
  apply (mask_is_second_layer Sample.library
           (files (Sample.world Sample.points))
           "/srv/map/points.xlsx" "/srv/map/japan_boundary.geojson" None None
           Sample.japan_geo); vm_compute; reflexivity.
Defined.
